(** * An interactive yt-dlp front-end ([new.py]): model and properties

    The program is orchestration glue around the console, the filesystem, a
    package manager and the download library.  It is embedded as a state and
    exception monad over a [World] that holds the one module-level global
    ([DEFAULT_DOWNLOAD_PATH]), the lines still to be typed on standard input
    and the chronological trace of every effect performed.  Everything the
    program cannot decide itself (what is on disk, what the library does) is
    an oracle of the environment record [Env]. *)

From Stdlib Require Import String Ascii List Bool Arith Lia.
From stdpp Require Import gmap strings list.

#[local] Set Warnings "-register-all".
#[local] Open Scope string_scope.
#[local] Open Scope list_scope.

(** ** Python values *)

(** Strings are byte sequences (UTF-8 for the non-ASCII literals). *)

Definition truthy (s : string) : bool := negb (String.eqb s "").

Definition truthy_opt (o : option string) : bool :=
  match o with
  | Some s => truthy s
  | None => false
  end.

(** [x in l] on a list of strings. *)
Definition in_list (x : string) (l : list string) : bool :=
  existsb (String.eqb x) l.

(** [s * n] *)
Fixpoint str_mul (s : string) (n : nat) : string :=
  match n with
  | 0 => ""
  | S k => s +:+ str_mul s k
  end.

(** [str.lower()].  Only the ASCII letters are modelled; every other byte is
    left as it is.  The program compares lowered input with the tokens
    v, a, n, no and an Arabic word only: no cased letter outside ASCII lowers
    to a string made of those letters, and Arabic letters have no case. *)
Definition lower_ascii (c : ascii) : ascii :=
  let n := nat_of_ascii c in
  if ((65 <=? n) && (n <=? 90))%nat then ascii_of_nat (n + 32) else c.

Fixpoint lower (s : string) : string :=
  match s with
  | EmptyString => EmptyString
  | String c r => String (lower_ascii c) (lower r)
  end.

Definition chr (n : nat) : string := String (ascii_of_nat n) EmptyString.

(** The escapes used by the source's literals. *)
Definition nl : string := chr 10.
Definition formfeed : string := chr 12.
Definition backspace : string := chr 8.

(** A [pathlib.Path], kept as the string it was built from. *)
Record PyPath := Path { str_path : string }.

(** The dictionaries handed to the download library. *)
Inductive pyval :=
| VStr (s : string)
| VBool (b : bool)
| VList (l : list pyval)
| VDict (d : gmap string pyval).

Abbreviation dict := (gmap string pyval).

(** A dictionary display [{k1: v1, ...}]. *)
Definition pydict (items : list (string * pyval)) : dict := list_to_map items.

(** [d.update(u)]: the keys of [u] win. *)
Definition dict_update (d u : dict) : dict := u ∪ d.

(** ** Exceptions *)

Inductive exn :=
| DownloadError (msg : string)    (* yt_dlp.utils.DownloadError *)
| EOFError (msg : string)         (* input() at the end of standard input *)
| OtherException (msg : string)   (* any other instance of Exception *)
| KeyboardInterrupt.              (* a BaseException that is no Exception *)

(** [isinstance(e, Exception)] *)
Definition isinstance_Exception (e : exn) : bool :=
  match e with
  | KeyboardInterrupt => false
  | _ => true
  end.

(** [isinstance(e, yt_dlp.utils.DownloadError)] *)
Definition isinstance_DownloadError (e : exn) : bool :=
  match e with
  | DownloadError _ => true
  | _ => false
  end.

(** [str(e)] *)
Definition str_exn (e : exn) : string :=
  match e with
  | DownloadError msg | EOFError msg | OtherException msg => msg
  | KeyboardInterrupt => ""
  end.

(** ** Effects *)

Inductive event :=
| Print (s : string)                               (* print(s) *)
| Input (prompt : string)                          (* input(prompt) *)
| Which (cmd : string)                             (* shutil.which(cmd) *)
| PathExists (p : PyPath)                          (* p.exists() *)
| CheckCall (argv : list string)                   (* subprocess.check_call(argv) *)
| Mkdir (p : PyPath)                               (* p.mkdir(parents=True, exist_ok=True) *)
| Startfile (p : string)                           (* os.startfile(p) *)
| Popen (argv : list string)                       (* subprocess.Popen(argv) *)
| YdlEnter (opts : dict)                           (* with yt_dlp.YoutubeDL(opts) as ydl *)
| YdlDownload (opts : dict) (urls : list string)   (* ydl.download(urls) *)
| YdlExit.                                         (* leaving the with block *)

(** What the program's surroundings answer.  [None] from a fallible call is
    a normal return, [Some e] is the exception it raises. *)
Record Env := {
  home : PyPath;                                   (* Path.home() *)
  sep : string;                                    (* os.sep *)
  sys_executable : string;                         (* sys.executable *)
  platform_system : string;                        (* platform.system() *)
  which : string -> option string;                 (* shutil.which *)
  path_exists : PyPath -> bool;                    (* Path.exists *)
  resolve : PyPath -> PyPath;                      (* Path.resolve *)
  check_call : list string -> option exn;          (* subprocess.check_call *)
  mkdir : PyPath -> option exn;                    (* Path.mkdir *)
  startfile : string -> option exn;                (* os.startfile *)
  popen : list string -> option exn;               (* subprocess.Popen *)
  ydl_download : dict -> list string -> option exn (* YoutubeDL.download *)
}.

(** [p / child] *)
Definition path_div (e : Env) (p : PyPath) (child : string) : PyPath :=
  Path (str_path p +:+ sep e +:+ child).

Record World := {
  DEFAULT_DOWNLOAD_PATH : PyPath;   (* the module's global *)
  stdin : list string;              (* lines not yet read *)
  trace : list event                (* effects so far, oldest first *)
}.

(** The module body, line 10. *)
Definition initial_world (e : Env) (lines : list string) : World :=
  {| DEFAULT_DOWNLOAD_PATH := path_div e (path_div e (home e) "Downloads") "YT_Downloads";
     stdin := lines;
     trace := [] |}.

Definition log (evs : list event) (w : World) : World :=
  {| DEFAULT_DOWNLOAD_PATH := DEFAULT_DOWNLOAD_PATH w;
     stdin := stdin w;
     trace := trace w ++ evs |}.

Definition set_trace (t : list event) (w : World) : World :=
  {| DEFAULT_DOWNLOAD_PATH := DEFAULT_DOWNLOAD_PATH w;
     stdin := stdin w;
     trace := t |}.

(** ** The monad *)

Inductive outcome (A : Type) :=
| Ret (a : A)        (* normal completion *)
| Raise (e : exn)    (* an exception propagates *)
| OutOfFuel.         (* the model's loop bound was reached *)
Arguments Ret {A} a.
Arguments Raise {A} e.
Arguments OutOfFuel {A}.

Definition M (A : Type) : Type := World -> outcome A * World.

Definition ret {A} (a : A) : M A := fun w => (Ret a, w).

Definition bind {A B} (m : M A) (k : A -> M B) : M B := fun w =>
  match m w with
  | (Ret a, w') => k a w'
  | (Raise e, w') => (Raise e, w')
  | (OutOfFuel, w') => (OutOfFuel, w')
  end.

#[global] Instance M_ret : MRet M := @ret.
#[global] Instance M_bind : MBind M := fun A B k m => bind m k.

Definition raise {A} (e : exn) : M A := fun w => (Raise e, w).
Definition out_of_fuel {A} : M A := fun w => (OutOfFuel, w).

Definition emit (ev : event) : M unit := fun w => (Ret tt, log [ev] w).

(** A fallible call into the surroundings: logged, then its verdict. *)
Definition call (ev : event) (verdict : option exn) : M unit := fun w =>
  match verdict with
  | None => (Ret tt, log [ev] w)
  | Some e => (Raise e, log [ev] w)
  end.

Definition print (s : string) : M unit := emit (Print s).

(** [input(prompt)]: the prompt is written, then a line is taken; at the end
    of the input EOFError is raised. *)
Definition input (prompt : string) : M string := fun w =>
  match stdin w with
  | [] => (Raise (EOFError "EOF when reading a line"), log [Input prompt] w)
  | line :: rest =>
      (Ret line,
       {| DEFAULT_DOWNLOAD_PATH := DEFAULT_DOWNLOAD_PATH w;
          stdin := rest;
          trace := trace w ++ [Input prompt] |})
  end.

Definition get_DEFAULT_DOWNLOAD_PATH : M PyPath := fun w =>
  (Ret (DEFAULT_DOWNLOAD_PATH w), w).

(** The loop bound of the model: a loop that reads a line in every round
    cannot make more rounds than there are lines left, plus the one that
    meets the end of the input. *)
Definition lines_left : M nat := fun w => (Ret (length (stdin w)), w).

Definition set_DEFAULT_DOWNLOAD_PATH (p : PyPath) : M unit := fun w =>
  (Ret tt, {| DEFAULT_DOWNLOAD_PATH := p; stdin := stdin w; trace := trace w |}).

(** [try: body  except C1 as e: h1 e  except C2 as e: h2 e ...]: the first
    clause whose class the exception is an instance of handles it. *)
Fixpoint select_handler {A} (clauses : list ((exn -> bool) * (exn -> M A)))
    (e : exn) : option (M A) :=
  match clauses with
  | [] => None
  | (isinst, h) :: rest => if isinst e then Some (h e) else select_handler rest e
  end.

Definition try_except {A} (body : M A)
    (clauses : list ((exn -> bool) * (exn -> M A))) : M A := fun w =>
  match body w with
  | (Raise e, w') =>
      match select_handler clauses e with
      | Some h => h w'
      | None => (Raise e, w')
      end
  | r => r
  end.

(** Loop control: what a block of a loop body asks of the enclosing loop. *)
Inductive ctrl :=
| Next        (* fell through: go on with the next statement *)
| Continue    (* continue *)
| Break.      (* break *)

(** [b1; b2] inside a loop body: [b2] runs only if [b1] fell through. *)
Definition then_ (b1 b2 : M ctrl) : M ctrl :=
  c ← b1;
  match c with
  | Next => b2
  | _ => mret c
  end.

Module NewPy.
Section Program.

Variable env : Env.

(** *** find_ffmpeg_path (lines 12-33) *)

Definition common_paths : list PyPath :=
  [ Path "C:/YT/ffmpeg/bin/ffmpeg.exe";
    Path "C:/YT/ffmpeg/ffmpeg.exe";
    Path "C:/ffmpeg/bin/ffmpeg.exe";
    Path "C:/ffmpeg/ffmpeg.exe" ].

(** The [for p in common_paths] loop with its fall-through [return None]. *)
Fixpoint probe_paths (ps : list PyPath) : M (option string) :=
  match ps with
  | [] => mret None
  | p :: rest =>
      emit (PathExists p);;
      if path_exists env p then mret (Some (str_path (resolve env p)))
      else probe_paths rest
  end.

Definition find_ffmpeg_path : M (option string) :=
  emit (Which "ffmpeg");;
  let ffmpeg_exe := which env "ffmpeg" in
  if truthy_opt ffmpeg_exe then mret ffmpeg_exe
  else probe_paths common_paths.

(** *** update_ytdlp_library (lines 35-45) *)

Definition pip_upgrade_argv : list string :=
  [sys_executable env; "-m"; "pip"; "install"; "--upgrade"; "yt-dlp"].

Definition update_ytdlp_library : M unit :=
  print (str_mul "-" 40);;
  print "🔄 Checking for yt-dlp library updates...";;
  try_except
    (call (CheckCall pip_upgrade_argv) (check_call env pip_upgrade_argv);;
     print "✅ Library updated successfully (or is already the latest version).")
    [(isinstance_Exception,
      fun e => print "❌ Failed to update library. Please update manually.")];;
  print (str_mul "-" 40).

(** *** open_download_folder (lines 47-61) *)

Definition open_download_folder (folder_path : string) : M unit :=
  try_except
    ((if String.eqb (platform_system env) "Windows" then
        call (Startfile folder_path) (startfile env folder_path)
      else if String.eqb (platform_system env) "Darwin" then
        call (Popen ["open"; folder_path]) (popen env ["open"; folder_path])
      else
        call (Popen ["xdg-open"; folder_path]) (popen env ["xdg-open"; folder_path]));;
     print ("📂 Opening download folder now: " +:+ folder_path))
    [(isinstance_Exception,
      fun e => print ("❌ Failed to open download folder automatically: " +:+ str_exn e))].

(** *** create_download_options (lines 63-86) *)

Definition create_download_options (is_audio_only : bool) (ffmpeg_path : string)
    : M dict :=
  dest ← get_DEFAULT_DOWNLOAD_PATH;
  let output_template :=
    str_path (path_div env (resolve env dest) "%(title)s.%(ext)s") in
  let ydl_opts := pydict
    [ ("outtmpl", VStr output_template);
      ("ignoreerrors", VBool true);
      ("ffmpeg_location", VStr ffmpeg_path);
      ("restrictfilenames", VBool true);
      ("format", VStr (if negb is_audio_only then "bestvideo*+bestaudio/best"
                       else "bestaudio/best")) ] in
  let ydl_opts :=
    if is_audio_only then
      dict_update ydl_opts (pydict
        [ ("postprocessors", VList [ VDict (pydict
             [ ("key", VStr "FFmpegExtractAudio");
               ("preferredcodec", VStr "mp3");
               ("preferredquality", VStr "192") ]) ]);
          ("extract_audio", VBool true) ])
    else ydl_opts in
  mret ydl_opts.

(** *** get_user_input (lines 88-112) *)

Definition url_prompt : string := "1. Please enter the video or playlist URL: ".

Definition path_prompt (current_path : string) : string :=
  "2. Current save path: [" +:+ current_path +:+ "]" +:+ nl +:+
  "   Do you want to change it? (Press Enter for current path, or enter a new path): ".

Definition mode_prompt : string :=
  "3. What type of download is required? (Type v for Video+Audio / a for Audio only): ".

Definition invalid_mode_message : string :=
  "❌ Invalid input. Please enter 'v' or 'a'.".

(** The [while True] of lines 104-110; it ends by [break] with the flag. *)
Fixpoint mode_loop (fuel : nat) : M bool :=
  match fuel with
  | 0 => out_of_fuel
  | S fuel' =>
      line ← input mode_prompt;
      let mode := lower line in
      if in_list mode ["v"; "a"] then mret (String.eqb mode "a")
      else print invalid_mode_message;; mode_loop fuel'
  end.

Definition prompt_mode : M bool :=
  n ← lines_left;
  mode_loop (S n).

(** Lines 96-102: the destination is shown and may be replaced. *)
Definition prompt_destination : M unit :=
  dest ← get_DEFAULT_DOWNLOAD_PATH;
  let current_path := str_path (resolve env dest) in
  new_path_input ← input (path_prompt current_path);
  if truthy new_path_input then set_DEFAULT_DOWNLOAD_PATH (Path new_path_input)
  else mret tt.

Definition get_user_input : M (string * bool) :=
  print (str_mul "=" 40);;
  print "          YT-DLP Interactive Downloader";;
  print (str_mul "=" 40);;
  url ← input url_prompt;
  prompt_destination;;
  is_audio_only ← prompt_mode;
  mret (url, is_audio_only).

(** *** main (lines 114-183) *)

(** Lines 141-147: the save folder is created. *)
Definition ensure_folder : M ctrl :=
  try_except
    (dest ← get_DEFAULT_DOWNLOAD_PATH;
     call (Mkdir dest) (mkdir env dest);;
     dest ← get_DEFAULT_DOWNLOAD_PATH;
     print (nl +:+ "File(s) will be saved in folder: " +:+ str_path (resolve env dest));;
     mret Next)
    [(isinstance_Exception,
      fun e => print ("❌ Failed to create save folder: " +:+ str_exn e);;
               mret Continue)].

(** [with yt_dlp.YoutubeDL(ydl_options) as ydl: body]: the session is left
    on every way out of the body, by a return or by an exception, which then
    goes on.  Building, entering and leaving the session are taken not to
    raise. *)
Definition with_YoutubeDL {A} (ydl_options : dict) (body : M A) : M A := fun w =>
  match body (log [YdlEnter ydl_options] w) with
  | (OutOfFuel, w') => (OutOfFuel, w')
  | (r, w') => (r, log [YdlExit] w')
  end.

Definition download_failed_message : string :=
  "❌ Download failed. Ensure the URL is correct and the library is updated.".

Definition unexpected_error_message (e : exn) : string :=
  "❌ An unexpected error occurred. Error details: " +:+ str_exn e.

(** Lines 156-174: the download attempt and its report. *)
Definition download_and_report (url : string) (ydl_options : dict) : M unit :=
  try_except
    (with_YoutubeDL ydl_options
       (call (YdlDownload ydl_options [url]) (ydl_download env ydl_options [url]);;
        print (nl +:+ str_mul "=" 40);;
        print "         🥳 Download operations complete!";;
        print (str_mul "=" 40);;
        dest ← get_DEFAULT_DOWNLOAD_PATH;
        open_download_folder (str_path (resolve env dest))))
    [(isinstance_DownloadError,
      fun e => print (nl +:+ str_mul "=" 40);;
               print download_failed_message;;
               print ("Error details: " +:+ str_exn e);;
               print (str_mul "=" 40));
     (isinstance_Exception,
      fun e => print (nl +:+ str_mul "=" 40);;
               print (unexpected_error_message e);;
               print (str_mul "=" 40))].

Definition continue_prompt : string :=
  nl +:+ "Do you want to download another video? (Type yes or press Enter to continue, or no to exit): ".

Definition stop_tokens : list string := ["no"; "n"; "لا"].

Definition goodbye_message : string := "Thank you for using the tool. Goodbye.".

Definition separator : string := nl +:+ str_mul "#" 50 +:+ nl.

Definition no_url_message : string := "❌ No URL entered. Returning to the start.".

(** Lines 177-183: whether to go round again. *)
Definition ask_continue : M ctrl :=
  line ← input continue_prompt;
  let cont := lower line in
  if in_list cont stop_tokens then
    print goodbye_message;;
    mret Break
  else
    print separator;;
    mret Next.

(** Lines 149-174: the options are built and announced, the download is
    attempted. *)
Definition start_download (ffmpeg_path url : string) (is_audio_only : bool)
    : M unit :=
  ydl_options ← create_download_options is_audio_only ffmpeg_path;
  print (str_mul "-" 40);;
  print ("Selected download type: " +:+
         (if is_audio_only then "Audio Only (MP3)"
          else "Best Quality Video and Audio"));;
  print (str_mul "-" 40);;
  download_and_report url ydl_options.

(** Lines 136-183: a round of the loop once the request has been read. *)
Definition handle_request (ffmpeg_path url : string) (is_audio_only : bool)
    : M ctrl :=
  then_ (if negb (truthy url) then
           print no_url_message;;
           mret Continue
         else mret Next)
  (then_ ensure_folder
  (start_download ffmpeg_path url is_audio_only;;
   ask_continue)).

(** Lines 134-183: one round of the [while True] of [main]. *)
Definition loop_body (ffmpeg_path : string) : M ctrl :=
  '(url, is_audio_only) ← get_user_input;
  handle_request ffmpeg_path url is_audio_only.

(** The [while True] of line 132. *)
Fixpoint main_loop (fuel : nat) (ffmpeg_path : string) : M unit :=
  match fuel with
  | 0 => out_of_fuel
  | S fuel' =>
      c ← loop_body ffmpeg_path;
      match c with
      | Break => mret tt
      | _ => main_loop fuel' ffmpeg_path
      end
  end.

Definition session (ffmpeg_path : string) : M unit :=
  n ← lines_left;
  main_loop (S n) ffmpeg_path.

(** Lines 122-127. *)
Definition ffmpeg_missing_notice : M unit :=
  print (nl +:+ str_mul "=" 40);;
  print "🚨 IMPORTANT NOTE: FFmpeg was not found!";;
  print "  Video/audio will not be merged, and you may get temporary files (e.g., `_.webm`).";;
  print ("  To fix this, ensure ffmpeg.exe is in: C:\YT" +:+ formfeed +:+ "fmpeg" +:+
         backspace +:+ "in");;
  print (str_mul "=" 40).

(** Lines 120-129: [ffmpeg_path] after the startup check.  The test
    [not ffmpeg_path or ffmpeg_path == 'ffmpeg'] is taken case by case on the
    optional string. *)
Definition check_ffmpeg : M string :=
  found ← find_ffmpeg_path;
  match found with
  | Some path =>
      if negb (truthy path) || String.eqb path "ffmpeg" then
        ffmpeg_missing_notice;; mret "ffmpeg"
      else
        print (nl +:+ "✅ FFmpeg found. Video and audio will be merged!");;
        mret path
  | None => ffmpeg_missing_notice;; mret "ffmpeg"
  end.

Definition main : M unit :=
  update_ytdlp_library;;
  ffmpeg_path ← check_ffmpeg;
  session ffmpeg_path.


End Program.
End NewPy.

Import NewPy.

(** ** Notions used in the statements *)

(** What [ffmpeg_missing_notice] prints. *)
Definition ffmpeg_missing_notice_events : list event :=
  [ Print (nl +:+ str_mul "=" 40);
    Print "🚨 IMPORTANT NOTE: FFmpeg was not found!";
    Print "  Video/audio will not be merged, and you may get temporary files (e.g., `_.webm`).";
    Print ("  To fix this, ensure ffmpeg.exe is in: C:\YT" +:+ formfeed +:+ "fmpeg" +:+
           backspace +:+ "in");
    Print (str_mul "=" 40) ].

(** The post-processing directive of an audio-only request. *)
Definition extract_audio_directive : pyval :=
  VDict (pydict [ ("key", VStr "FFmpegExtractAudio");
                  ("preferredcodec", VStr "mp3");
                  ("preferredquality", VStr "192") ]).

(** The world in which a line has just been read at [prompt]. *)
Definition after_input (prompt : string) (rest : list string) (w : World) : World :=
  {| DEFAULT_DOWNLOAD_PATH := DEFAULT_DOWNLOAD_PATH w;
     stdin := rest;
     trace := trace w ++ [Input prompt] |}.

(** Console traffic, and calls into the download library. *)
Definition is_console (ev : event) : bool :=
  match ev with
  | Print _ | Input _ => true
  | _ => false
  end.

Definition is_library_call (ev : event) : bool :=
  match ev with
  | YdlEnter _ | YdlDownload _ _ | YdlExit => true
  | _ => false
  end.

(** [respects R m]: from every world, [m] ends within the model's loop bound
    and in a world related to the first by [R].  For a preorder [R] this is
    closed under the monad's operations, so a property of the primitives
    lifts to every block of the program. *)

Definition respects (R : relation World) {A} (m : M A) : Prop :=
  forall w, fst (m w) <> OutOfFuel /\ R w (snd (m w)).

(** The destination is the same; no more input is pending than before. *)
Definition same_dest : relation World := fun w w' =>
  DEFAULT_DOWNLOAD_PATH w' = DEFAULT_DOWNLOAD_PATH w.

Definition no_longer : relation World := fun w w' =>
  length (stdin w') <= length (stdin w).

(** What [get_user_input] prints first. *)
Definition banner_events : list event :=
  [ Print (str_mul "=" 40);
    Print "          YT-DLP Interactive Downloader";
    Print (str_mul "=" 40) ].

(** The world in which [get_user_input] reaches its mode prompt, the URL
    and the answer [new_path_input] to the destination prompt having been
    read, [rest] being the lines after them. *)
Definition at_mode_prompt (e : Env) (w : World) (new_path_input : string)
    (rest : list string) : World :=
  {| DEFAULT_DOWNLOAD_PATH :=
       if truthy new_path_input then Path new_path_input
       else DEFAULT_DOWNLOAD_PATH w;
     stdin := rest;
     trace := trace w ++ banner_events ++
              [ Input url_prompt;
                Input (path_prompt (str_path (resolve e (DEFAULT_DOWNLOAD_PATH w)))) ] |}.

(** [oblivious m]: [m] never looks at the trace.  Run from the same world
    with another past, it does the same, ends with the same outcome and adds
    the same events. *)
Definition oblivious {A} (m : M A) : Prop :=
  forall w, exists evs, forall t,
    m (set_trace t w) = (fst (m w), set_trace (t ++ evs) (snd (m w))).

(** A response matches the whitelist when, case put aside, it is exactly
    one of its entries. *)
Definition matches_stop_token (response : string) : Prop :=
  Exists (fun token => lower response = lower token) stop_tokens.

(** Only console traffic has been added. *)
Definition console_only : relation World := fun w w' =>
  exists evs, trace w' = trace w ++ evs /\ Forall (fun ev => is_console ev = true) evs.

(** What lines 141-147 do when the folder can be created, and when not. *)
Definition folder_ready_events (e : Env) (dest : PyPath) : list event :=
  [ Mkdir dest;
    Print (nl +:+ "File(s) will be saved in folder: " +:+ str_path (resolve e dest)) ].

Definition folder_failed_events (dest : PyPath) (err : exn) : list event :=
  [ Mkdir dest;
    Print ("❌ Failed to create save folder: " +:+ str_exn err) ].

(** What lines 152-154 print. *)
Definition announce_events (is_audio_only : bool) : list event :=
  [ Print (str_mul "-" 40);
    Print ("Selected download type: " +:+
           (if is_audio_only then "Audio Only (MP3)"
            else "Best Quality Video and Audio"));
    Print (str_mul "-" 40) ].

(** The three reports of lines 159-174. *)
Definition completion_banner : list event :=
  [ Print (nl +:+ str_mul "=" 40);
    Print "         🥳 Download operations complete!";
    Print (str_mul "=" 40) ].

Definition download_failed_report (err : exn) : list event :=
  [ Print (nl +:+ str_mul "=" 40);
    Print download_failed_message;
    Print ("Error details: " +:+ str_exn err);
    Print (str_mul "=" 40) ].

Definition unexpected_error_report (err : exn) : list event :=
  [ Print (nl +:+ str_mul "=" 40);
    Print (unexpected_error_message err);
    Print (str_mul "=" 40) ].

(** The calls by which [open_download_folder] opens a folder. *)
Definition is_open_call (ev : event) : bool :=
  match ev with
  | Startfile _ | Popen _ => true
  | _ => false
  end.

(** [rounds e ffmpeg_path n w = Some w']: from the top of the loop in [w],
    [n] rounds have each gone round again, and the loop is at its top in
    [w']. *)
Fixpoint rounds (e : Env) (ffmpeg_path : string) (n : nat) (w : World)
    : option World :=
  match n with
  | 0 => Some w
  | S k =>
      match loop_body e ffmpeg_path w with
      | (Ret Break, _) | (Raise _, _) | (OutOfFuel, _) => None
      | (Ret _, w') => rounds e ffmpeg_path k w'
      end
  end.

(** In each of the [n] rounds from [w] the destination prompt, the second
    of a round, is answered by the empty line. *)
Definition no_override (e : Env) (ffmpeg_path : string) (n : nat) (w : World)
    : Prop :=
  forall k wk, k < n -> rounds e ffmpeg_path k w = Some wk -> stdin wk !! 1 = Some "".

(** The one call by which [open_download_folder] opens [folder_path] on the
    platform of [e], and what the surroundings answer to it. *)
Definition open_call (e : Env) (folder_path : string) : event * option exn :=
  if String.eqb (platform_system e) "Windows" then
    (Startfile folder_path, startfile e folder_path)
  else if String.eqb (platform_system e) "Darwin" then
    (Popen ["open"; folder_path], popen e ["open"; folder_path])
  else
    (Popen ["xdg-open"; folder_path], popen e ["xdg-open"; folder_path]).

(** What [update_ytdlp_library] does before the verdict of pip is known. *)
Definition update_started_events (e : Env) : list event :=
  [ Print (str_mul "-" 40);
    Print "🔄 Checking for yt-dlp library updates...";
    CheckCall (pip_upgrade_argv e) ].

Definition ffmpeg_found_message : string :=
  nl +:+ "✅ FFmpeg found. Video and audio will be merged!".

(** The probe of one of the fixed candidates. *)
Definition is_candidate_probe (ev : event) : Prop :=
  exists p, ev = PathExists p /\ In p common_paths.



(** The traffic with the download library of one complete attempt. *)
Definition library_session (opts : dict) (url : string) : list event :=
  [YdlEnter opts; YdlDownload opts [url]; YdlExit].

(** The calls into the download library among [evs]. *)
Definition library_calls (evs : list event) : list event :=
  List.filter is_library_call evs.

(** The record [create_download_options] returns in the world [w]. *)
Definition options_at (e : Env) (is_audio_only : bool) (ffmpeg_path : string)
    (w : World) : dict :=
  match fst (create_download_options e is_audio_only ffmpeg_path w) with
  | Ret opts => opts
  | _ => ∅
  end.

(** The library traffic due in a round that has read [url] and the flag and
    stands in [w]: one session if there is a URL and the folder can be
    created, none otherwise. *)
Definition library_calls_due (e : Env) (ffmpeg_path url : string)
    (is_audio_only : bool) (w : World) : list event :=
  if truthy url then
    match mkdir e (DEFAULT_DOWNLOAD_PATH w) with
    | None => library_session (options_at e is_audio_only ffmpeg_path w) url
    | Some _ => []
    end
  else [].

(** [raises_only Q m]: every exception [m] lets out satisfies [Q]. *)
Definition raises_only (Q : exn -> Prop) {A} (m : M A) : Prop :=
  forall w e w', m w = (Raise e, w') -> Q e.




(** The responses that stop the loop at the continue prompt. *)
Definition stop_responses : list string :=
  ["no"; "No"; "nO"; "NO"; "n"; "N"; "لا"].

(** The calls the program makes at startup. *)
Definition is_startup_call (ev : event) : bool :=
  match ev with
  | CheckCall _ | Which _ | PathExists _ => true
  | _ => false
  end.

Definition startup_calls (evs : list event) : list event :=
  List.filter is_startup_call evs.

(** ** Sample surroundings, for concrete runs *)

(** A machine where [shutil.which] answers [found], exactly the paths
    [on_disk] exist, paths resolve to themselves, creating [unwritable]
    fails and downloading [broken_url] fails with [failure]. *)
Definition sample_env (found : option string) (on_disk : list string)
    (unwritable : string) (broken_url : string) (failure : exn) : Env :=
  {| home := Path "/home/user";
     sep := "/";
     sys_executable := "/usr/bin/python3";
     platform_system := "Linux";
     which := fun _ => found;
     path_exists := fun p => in_list (str_path p) on_disk;
     resolve := fun p => p;
     check_call := fun _ => None;
     mkdir := fun p => if String.eqb (str_path p) unwritable
                       then Some (OtherException "[Errno 13] Permission denied")
                       else None;
     startfile := fun _ => None;
     popen := fun _ => None;
     ydl_download := fun _ urls => if in_list broken_url urls then Some failure
                                   else None |}.

Definition env_on_path : Env :=
  sample_env (Some "/usr/bin/ffmpeg") [] "" "" KeyboardInterrupt.

Definition env_on_disk : Env :=
  sample_env None ["C:/YT/ffmpeg/ffmpeg.exe"; "C:/ffmpeg/ffmpeg.exe"] "" ""
    KeyboardInterrupt.

Definition plain_env : Env :=
  sample_env None [] "/root/locked" "https://example.com/gone"
    (DownloadError "ERROR: Video unavailable").

Definition flaky_env : Env :=
  sample_env None [] "/root/locked" "https://example.com/gone"
    (OtherException "timed out").

(** The record built in [e] from the world [w], for the bare command name. *)
Definition sample_options (e : Env) (is_audio_only : bool) (w : World) : dict :=
  match fst (create_download_options e is_audio_only "ffmpeg" w) with
  | Ret opts => opts
  | _ => ∅
  end.

(** [e] with another answer of pip, and on another platform where opening a
    folder is answered by [verdict]. *)
Definition with_check_call (verdict : option exn) (e : Env) : Env :=
  {| home := home e; sep := sep e; sys_executable := sys_executable e;
     platform_system := platform_system e; which := which e;
     path_exists := path_exists e; resolve := resolve e;
     check_call := fun _ => verdict;
     mkdir := mkdir e; startfile := startfile e; popen := popen e;
     ydl_download := ydl_download e |}.

Definition on_platform (name : string) (verdict : option exn) (e : Env) : Env :=
  {| home := home e; sep := sep e; sys_executable := sys_executable e;
     platform_system := name; which := which e;
     path_exists := path_exists e; resolve := resolve e;
     check_call := check_call e;
     mkdir := mkdir e; startfile := fun _ => verdict; popen := fun _ => verdict;
     ydl_download := ydl_download e |}.

Definition offline_env : Env :=
  with_check_call (Some (OtherException "Command returned non-zero exit status 1."))
    plain_env.

Definition interrupted_env : Env := with_check_call (Some KeyboardInterrupt) plain_env.

(** * Properties *)

(** ** Worlds and the monad *)

Lemma log_log (a b : list event) (w : World) : log b (log a w) = log (a ++ b) w.
Proof. unfold log; simpl. by rewrite <- app_assoc. Qed.

Lemma log_nil (w : World) : log [] w = w.
Proof. destruct w; unfold log; simpl. by rewrite app_nil_r. Qed.

Lemma bind_eq {A B} (m : M A) (k : A -> M B) (w w' : World) (a : A) :
  m w = (Ret a, w') -> (m ≫= k) w = k a w'.
Proof. intros H. unfold mbind, M_bind, bind. by rewrite H. Qed.

Lemma bind_raise {A B} (m : M A) (k : A -> M B) (w w' : World) (e : exn) :
  m w = (Raise e, w') -> (m ≫= k) w = (Raise e, w').
Proof. intros H. unfold mbind, M_bind, bind. by rewrite H. Qed.

Lemma emit_bind {B} (ev : event) (k : unit -> M B) (w : World) :
  (emit ev ≫= k) w = k tt (log [ev] w).
Proof. reflexivity. Qed.

Lemma print_bind {B} (s : string) (k : unit -> M B) (w : World) :
  (print s ≫= k) w = k tt (log [Print s] w).
Proof. reflexivity. Qed.

(** Unfolds the monad's plumbing, leaving the program's own functions. *)
Ltac monad_unfold :=
  unfold mbind, M_bind, mret, M_ret, bind, ret, raise, out_of_fuel,
    print, emit, call, get_DEFAULT_DOWNLOAD_PATH, set_DEFAULT_DOWNLOAD_PATH,
    lines_left in *.

(** ** The Binary Locator *)

Lemma probe_paths_hit (env : Env) (earlier : list PyPath) (p : PyPath)
    (later : list PyPath) (w : World) :
  (forall q, q ∈ earlier -> path_exists env q = false) ->
  path_exists env p = true ->
  probe_paths env (earlier ++ p :: later) w
  = (Ret (Some (str_path (resolve env p))), log (map PathExists earlier ++ [PathExists p]) w).
Proof.
  revert w. induction earlier as [|q earlier IH]; intros w Hmiss Hp; simpl.
  - rewrite emit_bind. by rewrite Hp.
  - rewrite emit_bind. rewrite (Hmiss q) by apply list_elem_of_here.
    rewrite IH; [|intros r Hr; apply Hmiss; by apply list_elem_of_further|done].
    by rewrite log_log.
Qed.

Lemma probe_paths_miss (env : Env) (ps : list PyPath) (w : World) :
  (forall q, q ∈ ps -> path_exists env q = false) ->
  probe_paths env ps w = (Ret None, log (map PathExists ps) w).
Proof.
  revert w. induction ps as [|q ps IH]; intros w Hmiss; simpl.
  - by rewrite log_nil.
  - rewrite emit_bind. rewrite (Hmiss q) by apply list_elem_of_here.
    rewrite IH; [|intros r Hr; apply Hmiss; by apply list_elem_of_further].
    by rewrite log_log.
Qed.

Lemma truthy_spec (s : string) : truthy s = true <-> s <> "".
Proof.
  unfold truthy. destruct (String.eqb_spec s ""); simpl; split; congruence.
Qed.

(** C2.  Whatever is on disk and on the search path, the locator answers
    with the first match in priority order.  A hit of [shutil.which] is
    returned as it is and the only effect is that query: no candidate is
    probed.  Without a hit, the candidates are probed in their listed order
    up to the first that exists, and that one, resolved, is returned. *)
Theorem find_ffmpeg_path_first_match (env : Env) (w : World) :
  (forall exe, which env "ffmpeg" = Some exe -> exe <> "" ->
     find_ffmpeg_path env w = (Ret (Some exe), log [Which "ffmpeg"] w))
  /\ (truthy_opt (which env "ffmpeg") = false ->
      forall (earlier : list PyPath) (p : PyPath) (later : list PyPath),
        common_paths = earlier ++ p :: later ->
        Forall (fun q => path_exists env q = false) earlier ->
        path_exists env p = true ->
        find_ffmpeg_path env w
        = (Ret (Some (str_path (resolve env p))),
           log (Which "ffmpeg" :: map PathExists earlier ++ [PathExists p]) w)).
Proof.
  split.
  - intros exe Hw Hne. unfold find_ffmpeg_path. rewrite emit_bind, Hw. simpl.
    apply truthy_spec in Hne. by rewrite Hne.
  - intros Hw earlier p later Hcp Hmiss Hp. unfold find_ffmpeg_path.
    rewrite emit_bind, Hw, Hcp.
    rewrite (probe_paths_hit env earlier p later);
      [|intros q Hq; by eapply Forall_forall in Hmiss|done].
    by rewrite log_log.
Qed.

Lemma find_ffmpeg_path_first_match_witness :
  find_ffmpeg_path env_on_path (initial_world env_on_path [])
  = (Ret (Some "/usr/bin/ffmpeg"), log [Which "ffmpeg"] (initial_world env_on_path []))
  /\ find_ffmpeg_path env_on_disk (initial_world env_on_disk [])
     = (Ret (Some "C:/YT/ffmpeg/ffmpeg.exe"),
        log [ Which "ffmpeg"; PathExists (Path "C:/YT/ffmpeg/bin/ffmpeg.exe");
              PathExists (Path "C:/YT/ffmpeg/ffmpeg.exe") ]
          (initial_world env_on_disk [])).
Proof.
  split.
  - apply (proj1 (find_ffmpeg_path_first_match env_on_path _));
      [reflexivity | discriminate].
  - apply (proj2 (find_ffmpeg_path_first_match env_on_disk _) eq_refl
             [Path "C:/YT/ffmpeg/bin/ffmpeg.exe"] (Path "C:/YT/ffmpeg/ffmpeg.exe")
             [Path "C:/ffmpeg/bin/ffmpeg.exe"; Path "C:/ffmpeg/ffmpeg.exe"]).
    + reflexivity.
    + repeat constructor.
    + reflexivity.
Defined.

(** ** The startup check *)

Lemma ffmpeg_missing_notice_eq (env : Env) (w : World) :
  ffmpeg_missing_notice w = (Ret tt, log ffmpeg_missing_notice_events w).
Proof.
  unfold ffmpeg_missing_notice, ffmpeg_missing_notice_events.
  rewrite !print_bind. unfold print, emit. by rewrite !log_log.
Qed.

(** C7.  With no hit on the search path and none of the candidates on disk,
    the locator returns [None] and raises nothing; [main] prints its notice,
    takes the bare command name as the binary path and enters the session
    loop with it, so that every options record names that bare command. *)
Theorem ffmpeg_absent_is_not_fatal (env : Env) :
  truthy_opt (which env "ffmpeg") = false ->
  Forall (fun p => path_exists env p = false) common_paths ->
  forall w : World,
    let probes := Which "ffmpeg" :: map PathExists common_paths in
    find_ffmpeg_path env w = (Ret None, log probes w)
    /\ check_ffmpeg env w
       = (Ret "ffmpeg", log (probes ++ ffmpeg_missing_notice_events) w)
    /\ (forall w0, update_ytdlp_library env w0 = (Ret tt, w) ->
          main env w0
          = session env "ffmpeg" (log (probes ++ ffmpeg_missing_notice_events) w))
    /\ (forall (is_audio_only : bool) (w' : World) (opts : dict),
          create_download_options env is_audio_only "ffmpeg" w' = (Ret opts, w')
          -> opts !! "ffmpeg_location" = Some (VStr "ffmpeg")).
Proof.
  intros Hw Hmiss w probes.
  assert (Hfind : find_ffmpeg_path env w = (Ret None, log probes w)).
  { unfold find_ffmpeg_path. rewrite emit_bind, Hw.
    rewrite probe_paths_miss by (intros q Hq; by eapply Forall_forall in Hmiss).
    by rewrite log_log. }
  assert (Hcheck : check_ffmpeg env w
                   = (Ret "ffmpeg", log (probes ++ ffmpeg_missing_notice_events) w)).
  { unfold check_ffmpeg. rewrite (bind_eq _ _ _ _ _ Hfind).
    unfold mbind, M_bind, bind. rewrite (ffmpeg_missing_notice_eq env).
    simpl. by rewrite log_log. }
  repeat split; try done.
  - intros w0 Hup. unfold main. rewrite (bind_eq _ _ _ _ _ Hup).
    by rewrite (bind_eq _ _ _ _ _ Hcheck).
  - intros a w' opts Hopts. unfold create_download_options in Hopts.
    monad_unfold. injection Hopts as <-. by destruct a.
Qed.

Lemma ffmpeg_absent_is_not_fatal_witness :
  let w0 := initial_world plain_env ["https://example.com/watch?v=abc"; ""; "v"; "no"] in
  let w := snd (update_ytdlp_library plain_env w0) in
  find_ffmpeg_path plain_env w
  = (Ret None, log (Which "ffmpeg" :: map PathExists common_paths) w)
  /\ main plain_env w0
     = session plain_env "ffmpeg"
         (log ((Which "ffmpeg" :: map PathExists common_paths) ++ ffmpeg_missing_notice_events) w).
Proof.
  intros w0 w.
  destruct (ffmpeg_absent_is_not_fatal plain_env eq_refl
              ltac:(repeat constructor) w) as (Hfind & _ & Hmain & _).
  split; [exact Hfind | apply Hmain; reflexivity].
Defined.

(** ** The Options Builder *)

Lemma create_download_options_reads_only (env : Env) (is_audio_only : bool)
    (ffmpeg_path : string) (w : World) :
  exists opts, create_download_options env is_audio_only ffmpeg_path w = (Ret opts, w).
Proof. eexists. reflexivity. Qed.

(** C4.  For every binary path (and every state), the record of an
    audio-only request holds, under [postprocessors], the one directive that
    asks for extraction to mp3 at quality 192, and has [extract_audio] set;
    the record of a video request has no [postprocessors] entry at all (nor
    an [extract_audio] one). *)
Theorem create_download_options_postprocessing (env : Env) (ffmpeg_path : string)
    (w : World) :
  (exists opts,
     create_download_options env true ffmpeg_path w = (Ret opts, w)
     /\ opts !! "postprocessors" = Some (VList [extract_audio_directive])
     /\ extract_audio_directive
        = VDict (<["key" := VStr "FFmpegExtractAudio"]>
                   (<["preferredcodec" := VStr "mp3"]>
                      (<["preferredquality" := VStr "192"]> ∅)))
     /\ opts !! "extract_audio" = Some (VBool true)
     /\ opts !! "format" = Some (VStr "bestaudio/best"))
  /\ (exists opts,
        create_download_options env false ffmpeg_path w = (Ret opts, w)
        /\ opts !! "postprocessors" = None
        /\ opts !! "extract_audio" = None
        /\ opts !! "format" = Some (VStr "bestvideo*+bestaudio/best")).
Proof.
  split; eexists; (split; [reflexivity|]); repeat split; reflexivity.
Qed.

(** C1, as the code has it.  The record is a function of the flag, the
    binary path and the destination directory current at the call, resolved:
    two calls that agree on these (and on the path separator) return the
    same record, whatever else differs between the two states, and neither
    call changes the state. *)
Theorem create_download_options_determined (env1 env2 : Env) (is_audio_only : bool)
    (ffmpeg_path : string) (w1 w2 : World) :
  resolve env1 (DEFAULT_DOWNLOAD_PATH w1) = resolve env2 (DEFAULT_DOWNLOAD_PATH w2) ->
  sep env1 = sep env2 ->
  fst (create_download_options env1 is_audio_only ffmpeg_path w1)
  = fst (create_download_options env2 is_audio_only ffmpeg_path w2)
  /\ snd (create_download_options env1 is_audio_only ffmpeg_path w1) = w1
  /\ snd (create_download_options env2 is_audio_only ffmpeg_path w2) = w2.
Proof.
  intros Hdest Hsep. unfold create_download_options, path_div. monad_unfold. simpl.
  by rewrite Hdest, Hsep.
Qed.

Lemma create_download_options_determined_witness :
  let w1 := initial_world plain_env ["https://example.com/watch?v=abc"; ""; "v"] in
  let w2 := snd (get_user_input plain_env w1) in
  fst (create_download_options plain_env true "ffmpeg" w1)
  = fst (create_download_options plain_env true "ffmpeg" w2).
Proof.
  intros w1 w2.
  apply (create_download_options_determined plain_env plain_env true "ffmpeg" w1 w2);
    reflexivity.
Defined.

(** C1 as stated fails: the same flag and the same binary path give two
    different records before and after the user has entered another
    destination at the prompt of [get_user_input]. *)
Lemma create_download_options_not_referentially_transparent :
  let w1 := initial_world plain_env ["https://example.com/watch?v=abc"; "/srv/media"; "v"] in
  let w2 := snd (get_user_input plain_env w1) in
  fst (create_download_options plain_env false "ffmpeg" w1)
  <> fst (create_download_options plain_env false "ffmpeg" w2).
Proof.
  intros w1 w2 H.
  assert (Hk : forall o : outcome dict,
             o = fst (create_download_options plain_env false "ffmpeg" w2) ->
             match o with Ret d => d !! "outtmpl" | _ => None end
             = Some (VStr "/srv/media/%(title)s.%(ext)s")).
  { intros o ->. vm_compute. reflexivity. }
  specialize (Hk _ H). vm_compute in Hk. discriminate Hk.
Qed.

(** ** Reading a line *)

Lemma input_line (prompt line : string) (rest : list string) (w : World) :
  stdin w = line :: rest ->
  input prompt w = (Ret line, after_input prompt rest w).
Proof. intros H. unfold input. by rewrite H. Qed.

Lemma input_eof (prompt : string) (w : World) :
  stdin w = [] ->
  input prompt w = (Raise (EOFError "EOF when reading a line"), log [Input prompt] w).
Proof. intros H. unfold input. by rewrite H. Qed.

(** ** Properties that follow the structure of the program

    A property [P] of computations that holds of the primitives and is kept
    by the monad's operations holds of every block built from them.  The two
    loops are left to each instance: what [P] asks of them depends on the
    loop bound. *)

Section Blocks.
Variable P : forall A : Type, M A -> Prop.
Arguments P {A} _.

Hypothesis P_ret : forall A (a : A), P (mret a).
Hypothesis P_bind : forall A B (m : M A) (k : A -> M B),
  P m -> (forall a, P (k a)) -> P (m ≫= k).
Hypothesis P_try_except : forall A (body : M A)
    (clauses : list ((exn -> bool) * (exn -> M A))),
  P body -> Forall (fun c => forall e, P (c.2 e)) clauses -> P (try_except body clauses).
Hypothesis P_print : forall s, P (print s).
Hypothesis P_input : forall prompt, P (input prompt).
Hypothesis P_get : P get_DEFAULT_DOWNLOAD_PATH.

(** One syntax-directed step through a block. *)
Ltac block_step :=
  lazymatch goal with
  | |- P (mbind _ _) => apply P_bind; [|intros ?]
  | |- P (mret _) => apply P_ret
  | |- P (then_ _ _) => unfold then_
  | |- P (try_except _ _) =>
      apply P_try_except;
      [|repeat (apply List.Forall_cons; [intros ?; simpl|]); try apply List.Forall_nil]
  | |- P (print _) => apply P_print
  | |- P (input _) => apply P_input
  | |- P get_DEFAULT_DOWNLOAD_PATH => apply P_get
  | |- P (if _ then _ else _) => case_match
  | |- P (match ?x with _ => _ end) => destruct x
  end.

Lemma block_ask_continue : P ask_continue.
Proof. unfold ask_continue. repeat block_step. Qed.


(** The console-only part of [get_user_input] needs, besides, the
    assignment to the global and the mode loop. *)
Section Prompt.
Hypothesis P_set : forall p, P (set_DEFAULT_DOWNLOAD_PATH p).
Hypothesis P_prompt_mode : P prompt_mode.

Lemma block_prompt_destination (env : Env) : P (prompt_destination env).
Proof. unfold prompt_destination. repeat block_step. apply P_set. Qed.

Lemma block_get_user_input (env : Env) : P (get_user_input env).
Proof.
  unfold get_user_input. repeat block_step;
    auto using block_prompt_destination.
Qed.
End Prompt.

(** The blocks that call into the surroundings. *)
Hypothesis P_emit : forall ev, P (emit ev).
Hypothesis P_call : forall ev verdict, P (call ev verdict).
Hypothesis P_with_YoutubeDL : forall A opts (body : M A),
  P body -> P (with_YoutubeDL opts body).

Variable env : Env.





Lemma block_open_download_folder (folder_path : string) :
  P (open_download_folder env folder_path).
Proof. unfold open_download_folder. repeat block_step; apply P_call. Qed.

Lemma block_create_download_options (is_audio_only : bool) (ffmpeg_path : string) :
  P (create_download_options env is_audio_only ffmpeg_path).
Proof. unfold create_download_options. repeat block_step. Qed.

Lemma block_ensure_folder : P (ensure_folder env).
Proof. unfold ensure_folder. repeat block_step. apply P_call. Qed.

Lemma block_download_and_report (url : string) (opts : dict) :
  P (download_and_report env url opts).
Proof.
  unfold download_and_report. repeat block_step.
  apply P_with_YoutubeDL. repeat block_step;
    solve [apply P_call | apply block_open_download_folder].
Qed.

Lemma block_start_download (ffmpeg_path url : string) (is_audio_only : bool) :
  P (start_download env ffmpeg_path url is_audio_only).
Proof.
  unfold start_download. repeat block_step;
    auto using block_create_download_options, block_download_and_report.
Qed.

Lemma block_handle_request (ffmpeg_path url : string) (is_audio_only : bool) :
  P (handle_request env ffmpeg_path url is_audio_only).
Proof.
  unfold handle_request. repeat block_step;
    auto using block_ensure_folder, block_start_download, block_ask_continue.
Qed.

Hypothesis P_set : forall p, P (set_DEFAULT_DOWNLOAD_PATH p).
Hypothesis P_prompt_mode : P prompt_mode.

Lemma block_loop_body (ffmpeg_path : string) : P (loop_body env ffmpeg_path).
Proof.
  unfold loop_body. apply P_bind; [by apply block_get_user_input|].
  intros [url is_audio_only]. apply block_handle_request.
Qed.
End Blocks.

(** ** What a computation may do to the world *)

Section Respects.
Context (R : relation World) `{!PreOrder R}.

Lemma respects_ret {A} (a : A) : respects R (mret a).
Proof. intros w. split; [done | reflexivity]. Qed.

Lemma respects_get : respects R get_DEFAULT_DOWNLOAD_PATH.
Proof. intros w. split; [done | reflexivity]. Qed.

Lemma respects_bind {A B} (m : M A) (k : A -> M B) :
  respects R m -> (forall a, respects R (k a)) -> respects R (m ≫= k).
Proof.
  intros Hm Hk w. unfold mbind, M_bind, bind.
  destruct (Hm w) as [Hfuel HR]. destruct (m w) as [[a|e|] w']; simpl in *; try done.
  destruct (Hk a w') as [Hfuel' HR']. split; [done|]. by etrans.
Qed.

Lemma respects_try_except {A} (body : M A)
    (clauses : list ((exn -> bool) * (exn -> M A))) :
  respects R body ->
  Forall (fun c => forall e, respects R (c.2 e)) clauses ->
  respects R (try_except body clauses).
Proof.
  intros Hb Hc w. unfold try_except.
  destruct (Hb w) as [Hfuel HR]. destruct (body w) as [[a|e|] w']; simpl in *; try done.
  assert (Hsel : forall h, select_handler clauses e = Some h -> respects R h).
  { clear -Hc. induction Hc as [|[isinst h'] cs Hh _ IH]; simpl; [done|].
    intros h. destruct (isinst e); [|exact (IH h)].
    intros [= <-]. apply Hh. }
  destruct (select_handler clauses e) as [h|] eqn:Hh; simpl; [|done].
  destruct (Hsel h eq_refl w') as [Hfuel' HR']. split; [done|]. by etrans.
Qed.

(** The console. *)
Hypothesis R_print : forall s w, R w (log [Print s] w).
Hypothesis R_input_eof : forall prompt w, R w (log [Input prompt] w).
Hypothesis R_after_input : forall prompt line rest w,
  stdin w = line :: rest -> R w (after_input prompt rest w).

Lemma respects_print (s : string) : respects R (print s).
Proof. intros w. split; [done | apply R_print]. Qed.

Lemma respects_input (prompt : string) : respects R (input prompt).
Proof.
  intros w. unfold input. destruct (stdin w) eqn:Hin; (split; [done|]); simpl.
  - apply R_input_eof.
  - by eapply R_after_input.
Qed.

(** The mode loop reads a line in every round, so a bound above the number
    of lines left is never met. *)
Lemma respects_mode_loop (fuel : nat) (w : World) :
  length (stdin w) < fuel ->
  fst (mode_loop fuel w) <> OutOfFuel /\ R w (snd (mode_loop fuel w)).
Proof.
  revert w. induction fuel as [|fuel IH]; intros w Hlen; [lia|].
  cbn [mode_loop]. unfold mbind, M_bind, bind.
  destruct (stdin w) as [|line rest] eqn:Hin.
  - rewrite (input_eof _ _ Hin). simpl. split; [done | apply R_input_eof].
  - rewrite (input_line _ _ _ _ Hin).
    destruct (in_list (lower line) ["v"; "a"]); simpl.
    + split; [done | by eapply R_after_input].
    + destruct (IH (log [Print invalid_mode_message] (after_input mode_prompt rest w)))
        as [Hfuel HR]; [simpl in *; lia|].
      split; [done|].
      etrans; [by eapply R_after_input|]. etrans; [apply R_print|]. exact HR.
Qed.

Lemma respects_prompt_mode : respects R prompt_mode.
Proof. intros w. apply (respects_mode_loop (S (length (stdin w))) w). lia. Qed.

Lemma respects_ask_continue : respects R ask_continue.
Proof.
  apply (block_ask_continue (@respects R));
    auto using @respects_ret, @respects_bind, respects_print, respects_input.
Qed.

(** The assignment to the global. *)
Section Assignment.
Hypothesis R_set : forall p w, R w (snd (set_DEFAULT_DOWNLOAD_PATH p w)).

Lemma respects_set (p : PyPath) : respects R (set_DEFAULT_DOWNLOAD_PATH p).
Proof. intros w. split; [done | apply R_set]. Qed.

Lemma respects_get_user_input (env : Env) : respects R (get_user_input env).
Proof.
  apply (block_get_user_input (@respects R));
    auto using @respects_ret, @respects_bind, respects_print, respects_input,
      respects_get, respects_set, respects_prompt_mode.
Qed.
End Assignment.

(** The calls into the surroundings. *)
Hypothesis R_log : forall evs w, R w (log evs w).


Lemma respects_call (ev : event) (verdict : option exn) :
  respects R (call ev verdict).
Proof. intros w. unfold call. destruct verdict; (split; [done | apply R_log]). Qed.

Lemma respects_with_YoutubeDL {A} (opts : dict) (body : M A) :
  respects R body -> respects R (with_YoutubeDL opts body).
Proof.
  intros Hb w. unfold with_YoutubeDL.
  destruct (Hb (log [YdlEnter opts] w)) as [Hfuel HR].
  destruct (body _) as [[a|e|] w']; simpl in *; try done.
  - split; [done|]. etrans; [apply R_log|]. etrans; [exact HR|]. apply R_log.
  - split; [done|]. etrans; [apply R_log|]. etrans; [exact HR|]. apply R_log.
Qed.



Lemma respects_handle_request (env : Env) (ffmpeg_path url : string)
    (is_audio_only : bool) :
  respects R (handle_request env ffmpeg_path url is_audio_only).
Proof.
  apply (block_handle_request (@respects R));
    auto using @respects_ret, @respects_bind, @respects_try_except, respects_print,
      respects_input, respects_get, respects_call, @respects_with_YoutubeDL.
Qed.
End Respects.

#[local] Instance same_dest_preorder : PreOrder same_dest.
Proof. split; unfold same_dest; [by intros w | intros w1 w2 w3; congruence]. Qed.

#[local] Instance no_longer_preorder : PreOrder no_longer.
Proof. split; unfold no_longer; [by intros w | intros w1 w2 w3; lia]. Qed.

Lemma same_dest_log (evs : list event) (w : World) : same_dest w (log evs w).
Proof. reflexivity. Qed.

Lemma same_dest_after_input (prompt line : string) (rest : list string) (w : World) :
  stdin w = line :: rest -> same_dest w (after_input prompt rest w).
Proof. reflexivity. Qed.

Lemma no_longer_log (evs : list event) (w : World) : no_longer w (log evs w).
Proof. unfold no_longer. simpl. lia. Qed.

Lemma no_longer_print (s : string) (w : World) : no_longer w (log [Print s] w).
Proof. apply no_longer_log. Qed.

Lemma no_longer_input_eof (prompt : string) (w : World) :
  no_longer w (log [Input prompt] w).
Proof. apply no_longer_log. Qed.

Lemma no_longer_after_input (prompt line : string) (rest : list string) (w : World) :
  stdin w = line :: rest -> no_longer w (after_input prompt rest w).
Proof. intros H. unfold no_longer. rewrite H. simpl. lia. Qed.


(** ** The mode prompt *)

Lemma lower_ascii_v (c : ascii) :
  lower_ascii c = "v"%char -> c = "v"%char \/ c = "V"%char.
Proof.
  destruct c as [[] [] [] [] [] [] [] []]; vm_compute; intros H;
    solve [discriminate H | by left | by right].
Qed.

Lemma lower_ascii_a (c : ascii) :
  lower_ascii c = "a"%char -> c = "a"%char \/ c = "A"%char.
Proof.
  destruct c as [[] [] [] [] [] [] [] []]; vm_compute; intros H;
    solve [discriminate H | by left | by right].
Qed.

Lemma lower_is_v (s : string) : lower s = "v" <-> s = "v" \/ s = "V".
Proof.
  split; [|by intros [-> | ->]].
  destruct s as [|c [|c' s']]; simpl; try discriminate.
  intros [= H]. destruct (lower_ascii_v c H) as [-> | ->]; auto.
Qed.

Lemma lower_is_a (s : string) : lower s = "a" <-> s = "a" \/ s = "A".
Proof.
  split; [|by intros [-> | ->]].
  destruct s as [|c [|c' s']]; simpl; try discriminate.
  intros [= H]. destruct (lower_ascii_a c H) as [-> | ->]; auto.
Qed.

Lemma prompt_mode_unfold (w : World) (line : string) (rest : list string) :
  stdin w = line :: rest ->
  prompt_mode w
  = if in_list (lower line) ["v"; "a"]
    then (Ret (String.eqb (lower line) "a"), after_input mode_prompt rest w)
    else prompt_mode (log [Print invalid_mode_message] (after_input mode_prompt rest w)).
Proof.
  intros H. unfold prompt_mode at 1, lines_left, mbind, M_bind, bind. rewrite H.
  simpl length. cbn [mode_loop]. unfold mbind, M_bind, bind.
  rewrite (input_line _ _ _ _ H).
  destruct (in_list (lower line) ["v"; "a"]); reflexivity.
Qed.

(** The mode loop never meets its bound: it ends by an accepted line or by
    the end of the input.  It leaves the destination alone, starts with its
    prompt and talks to the console only. *)
Lemma mode_loop_spec (fuel : nat) (w : World) :
  length (stdin w) < fuel ->
  fst (mode_loop fuel w) <> OutOfFuel
  /\ DEFAULT_DOWNLOAD_PATH (snd (mode_loop fuel w)) = DEFAULT_DOWNLOAD_PATH w
  /\ exists evs,
       trace (snd (mode_loop fuel w)) = trace w ++ Input mode_prompt :: evs
       /\ Forall (fun ev => is_console ev = true) evs.
Proof.
  revert w. induction fuel as [|fuel IH]; intros w Hlen; [lia|].
  cbn [mode_loop]. unfold mbind, M_bind, bind.
  destruct (stdin w) as [|line rest] eqn:Hin.
  - rewrite (input_eof _ _ Hin). simpl. repeat split; [done|].
    exists []. by split.
  - rewrite (input_line _ _ _ _ Hin).
    destruct (in_list (lower line) ["v"; "a"]).
    + simpl. repeat split; [done|]. exists []. by split.
    + simpl.
      destruct (IH (log [Print invalid_mode_message] (after_input mode_prompt rest w)))
        as (Hfuel & Hdest & evs & Htr & Hev); [simpl in *; lia|].
      repeat split; [done | by rewrite Hdest |].
      exists (Print invalid_mode_message :: Input mode_prompt :: evs). split.
      * rewrite Htr. simpl. by rewrite <- !app_assoc.
      * by repeat constructor.
Qed.

Lemma prompt_mode_spec (w : World) :
  fst (prompt_mode w) <> OutOfFuel
  /\ DEFAULT_DOWNLOAD_PATH (snd (prompt_mode w)) = DEFAULT_DOWNLOAD_PATH w
  /\ exists evs,
       trace (snd (prompt_mode w)) = trace w ++ Input mode_prompt :: evs
       /\ Forall (fun ev => is_console ev = true) evs.
Proof. apply (mode_loop_spec (S (length (stdin w))) w). lia. Qed.

(** ** The prompt routine *)

Lemma get_user_input_eq (env : Env) (w : World) (url new_path_input : string)
    (rest : list string) :
  stdin w = url :: new_path_input :: rest ->
  get_user_input env w
  = (is_audio_only ← prompt_mode; mret (url, is_audio_only))
      (at_mode_prompt env w new_path_input rest).
Proof.
  intros Hin. unfold get_user_input. rewrite !print_bind.
  rewrite (bind_eq _ _ _ (after_input url_prompt (new_path_input :: rest)
                            (log banner_events w)) url).
  2:{ unfold banner_events. rewrite !log_log. by apply input_line. }
  assert (Hdest : prompt_destination env
                    (after_input url_prompt (new_path_input :: rest) (log banner_events w))
                  = (Ret tt, at_mode_prompt env w new_path_input rest)).
  { unfold prompt_destination, at_mode_prompt. monad_unfold. unfold input. simpl.
    destruct (truthy new_path_input); simpl; by rewrite <- !app_assoc. }
  by rewrite (bind_eq _ _ _ _ _ Hdest).
Qed.

(** With fewer than two lines left the routine ends at the end of the input,
    before the destination could be assigned. *)
Lemma get_user_input_eof (env : Env) (w : World) :
  length (stdin w) < 2 ->
  exists msg w',
    get_user_input env w = (Raise (EOFError msg), w')
    /\ DEFAULT_DOWNLOAD_PATH w' = DEFAULT_DOWNLOAD_PATH w.
Proof.
  intros Hlen. unfold get_user_input. rewrite !print_bind.
  destruct (stdin w) as [|url [|]] eqn:Hin; simpl in Hlen; try lia.
  - eexists _, _. split.
    + apply bind_raise. apply input_eof. by simpl.
    + reflexivity.
  - eexists _, _. split.
    + erewrite bind_eq; [|by apply input_line].
      apply bind_raise. unfold prompt_destination. monad_unfold. unfold input. simpl.
      reflexivity.
    + reflexivity.
Qed.

(** C8.  At the mode prompt a line is accepted exactly when it is v or a in
    either case; the flag is [true] exactly for a (or A).  Any other line,
    the empty one included, is answered by the complaint and the same prompt
    again.  The flag the prompt ends with is the one [get_user_input]
    returns, next to the URL. *)
Theorem mode_prompt_accepts_exactly_v_and_a (w : World) (line : string)
    (rest : list string) :
  stdin w = line :: rest ->
  (line = "v" \/ line = "V" ->
     prompt_mode w = (Ret false, after_input mode_prompt rest w))
  /\ (line = "a" \/ line = "A" ->
        prompt_mode w = (Ret true, after_input mode_prompt rest w))
  /\ (~ (line = "v" \/ line = "V" \/ line = "a" \/ line = "A") ->
        prompt_mode w
        = prompt_mode (log [Print invalid_mode_message]
                         (after_input mode_prompt rest w)))
  /\ (forall env w0 url new_path_input,
        stdin w0 = url :: new_path_input :: line :: rest ->
        w = at_mode_prompt env w0 new_path_input (line :: rest) ->
        get_user_input env w0
        = (is_audio_only ← prompt_mode; mret (url, is_audio_only)) w).
Proof.
  intros H.
  split; [|split; [|split]]; [| | |intros env w0 url npi Hin ->; by apply get_user_input_eq].
  all: rewrite (prompt_mode_unfold w line rest H).
  - by intros [-> | ->].
  - by intros [-> | ->].
  - intros Hno.
    destruct (in_list (lower line) ["v"; "a"]) eqn:Hin; [|done].
    exfalso. apply Hno. unfold in_list in Hin. simpl in Hin.
    rewrite orb_false_r in Hin. apply orb_true_iff in Hin as [Hv | Ha].
    + apply String.eqb_eq, lower_is_v in Hv. tauto.
    + apply String.eqb_eq, lower_is_a in Ha. tauto.
Qed.

Lemma mode_prompt_accepts_exactly_v_and_a_witness :
  prompt_mode (initial_world plain_env ["V"; "next"])
  = (Ret false, after_input mode_prompt ["next"] (initial_world plain_env ["V"; "next"]))
  /\ prompt_mode (initial_world plain_env ["A"])
     = (Ret true, after_input mode_prompt [] (initial_world plain_env ["A"]))
  /\ prompt_mode (initial_world plain_env [""; "a"])
     = prompt_mode (log [Print invalid_mode_message]
                      (after_input mode_prompt ["a"] (initial_world plain_env [""; "a"])))
  /\ get_user_input plain_env
       (initial_world plain_env ["https://example.com/watch?v=abc"; ""; "A"])
     = (Ret ("https://example.com/watch?v=abc", true),
        after_input mode_prompt []
          (at_mode_prompt plain_env
             (initial_world plain_env ["https://example.com/watch?v=abc"; ""; "A"])
             "" ["A"])).
Proof.
  split; [|split; [|split]].
  - apply (mode_prompt_accepts_exactly_v_and_a
             (initial_world plain_env ["V"; "next"]) "V" ["next"] eq_refl).
    by right.
  - apply (mode_prompt_accepts_exactly_v_and_a
             (initial_world plain_env ["A"]) "A" [] eq_refl).
    by right.
  - apply (mode_prompt_accepts_exactly_v_and_a
             (initial_world plain_env [""; "a"]) "" ["a"] eq_refl).
    intros [H | [H | [H | H]]]; discriminate H.
  - destruct (mode_prompt_accepts_exactly_v_and_a
                (at_mode_prompt plain_env
                   (initial_world plain_env ["https://example.com/watch?v=abc"; ""; "A"])
                   "" ["A"]) "A" [] eq_refl) as (_ & Ha & _ & Hget).
    rewrite (Hget plain_env
               (initial_world plain_env ["https://example.com/watch?v=abc"; ""; "A"])
               "https://example.com/watch?v=abc" "" eq_refl eq_refl).
    unfold mbind, M_bind, bind. rewrite (Ha ltac:(by right)). reflexivity.
Defined.

(** A completed call has taken lines from the input. *)
Lemma get_user_input_consumes (env : Env) (w w1 : World) (x : string * bool) :
  get_user_input env w = (Ret x, w1) -> length (stdin w1) < length (stdin w).
Proof.
  intros Hg. destruct (decide (length (stdin w) < 2)) as [Hs|Hs].
  - destruct (get_user_input_eof env w Hs) as (msg & w' & Heq & _). congruence.
  - destruct (stdin w) as [|url [|new_path_input rest]] eqn:Hin; simpl in Hs; try lia.
    rewrite (get_user_input_eq env w url new_path_input rest Hin) in Hg.
    unfold mbind, M_bind, bind in Hg.
    destruct (respects_prompt_mode no_longer no_longer_print no_longer_input_eof
                no_longer_after_input (at_mode_prompt env w new_path_input rest))
      as [_ HR].
    destruct (prompt_mode _) as [[a|e|] w2]; try done.
    unfold mret, M_ret, ret in Hg. injection Hg as _ <-.
    unfold no_longer in HR. simpl in *. lia.
Qed.

(** ** The session loop *)

Lemma loop_body_consumes (env : Env) (ffmpeg_path : string) (w w' : World) (c : ctrl) :
  loop_body env ffmpeg_path w = (Ret c, w') -> length (stdin w') < length (stdin w).
Proof.
  unfold loop_body, mbind, M_bind, bind. intros Hb.
  destruct (get_user_input env w) as [[[url is_audio_only]|e|] w1] eqn:Hg; try done.
  apply get_user_input_consumes in Hg.
  destruct (respects_handle_request no_longer no_longer_print no_longer_input_eof
              no_longer_after_input no_longer_log env ffmpeg_path url is_audio_only w1)
    as [_ HR].
  rewrite Hb in HR. unfold no_longer in HR. simpl in HR. lia.
Qed.


(** Any bound above the number of lines left gives the same run. *)
Lemma main_loop_fuel (env : Env) (ffmpeg_path : string) (f1 f2 : nat) (w : World) :
  length (stdin w) < f1 -> length (stdin w) < f2 ->
  main_loop env f1 ffmpeg_path w = main_loop env f2 ffmpeg_path w.
Proof.
  revert f2 w. induction f1 as [|f1 IH]; intros [|f2] w H1 H2; try lia.
  cbn [main_loop]. unfold mbind, M_bind, bind.
  destruct (loop_body env ffmpeg_path w) as [[c|e|] w'] eqn:Hb; try done.
  apply loop_body_consumes in Hb.
  destruct c; try done; apply IH; lia.
Qed.


Lemma session_eq (env : Env) (ffmpeg_path : string) (w : World) :
  session env ffmpeg_path w = main_loop env (S (length (stdin w))) ffmpeg_path w.
Proof. reflexivity. Qed.



(** A round that does not break is followed by the session from where it
    ended. *)
Lemma session_next_round (env : Env) (ffmpeg_path : string) (w w' : World) (c : ctrl) :
  loop_body env ffmpeg_path w = (Ret c, w') -> c <> Break ->
  session env ffmpeg_path w = session env ffmpeg_path w'.
Proof.
  intros Hb Hc. pose proof (loop_body_consumes _ _ _ _ _ Hb) as Hlen.
  rewrite (session_eq env ffmpeg_path w). cbn [main_loop].
  unfold mbind, M_bind, bind. rewrite Hb, session_eq.
  destruct c; try done; apply main_loop_fuel; lia.
Qed.

Lemma session_break (env : Env) (ffmpeg_path : string) (w w' : World) :
  loop_body env ffmpeg_path w = (Ret Break, w') ->
  session env ffmpeg_path w = (Ret tt, w').
Proof.
  intros Hb. rewrite session_eq. cbn [main_loop]. unfold mbind, M_bind, bind.
  by rewrite Hb.
Qed.

(** ** The trace is write-only *)

Lemma set_trace_id (w : World) : set_trace (trace w) w = w.
Proof. by destruct w. Qed.

Lemma oblivious_ret {A} (a : A) : oblivious (mret a).
Proof. intros w. exists []. intros t. simpl. by rewrite app_nil_r. Qed.

Lemma oblivious_out_of_fuel {A} : oblivious (@out_of_fuel A).
Proof. intros w. exists []. intros t. simpl. by rewrite app_nil_r. Qed.

Lemma oblivious_get : oblivious get_DEFAULT_DOWNLOAD_PATH.
Proof. intros w. exists []. intros t. simpl. by rewrite app_nil_r. Qed.

Lemma oblivious_lines_left : oblivious lines_left.
Proof. intros w. exists []. intros t. simpl. by rewrite app_nil_r. Qed.

Lemma oblivious_set (p : PyPath) : oblivious (set_DEFAULT_DOWNLOAD_PATH p).
Proof. intros w. exists []. intros t. simpl. by rewrite app_nil_r. Qed.

Lemma oblivious_emit (ev : event) : oblivious (emit ev).
Proof. intros w. exists [ev]. intros t. reflexivity. Qed.

Lemma oblivious_print (s : string) : oblivious (print s).
Proof. apply oblivious_emit. Qed.

Lemma oblivious_call (ev : event) (verdict : option exn) : oblivious (call ev verdict).
Proof. intros w. exists [ev]. intros t. unfold call. by destruct verdict. Qed.

Lemma oblivious_input (prompt : string) : oblivious (input prompt).
Proof.
  intros w. exists [Input prompt]. intros t. unfold input. simpl.
  by destruct (stdin w).
Qed.

Lemma oblivious_bind {A B} (m : M A) (k : A -> M B) :
  oblivious m -> (forall a, oblivious (k a)) -> oblivious (m ≫= k).
Proof.
  intros Hm Hk w. destruct (Hm w) as [evs1 H1].
  unfold mbind, M_bind, bind.
  destruct (m w) as [[a|e|] w1] eqn:Hmw; simpl in H1.
  - destruct (Hk a w1) as [evs2 H2]. exists (evs1 ++ evs2). intros t.
    by rewrite H1, H2, app_assoc.
  - exists evs1. intros t. by rewrite H1.
  - exists evs1. intros t. by rewrite H1.
Qed.

Lemma oblivious_try_except {A} (body : M A)
    (clauses : list ((exn -> bool) * (exn -> M A))) :
  oblivious body ->
  Forall (fun c => forall e, oblivious (c.2 e)) clauses ->
  oblivious (try_except body clauses).
Proof.
  intros Hb Hc w. destruct (Hb w) as [evs1 H1]. unfold try_except.
  destruct (body w) as [[a|e|] w1] eqn:Hbw; simpl in H1.
  - exists evs1. intros t. by rewrite H1.
  - assert (Hsel : forall h, select_handler clauses e = Some h -> oblivious h).
    { clear -Hc. induction Hc as [|[isinst h'] cs Hh _ IH]; simpl; [done|].
      intros h. destruct (isinst e); [|exact (IH h)].
      intros [= <-]. apply Hh. }
    destruct (select_handler clauses e) as [h|] eqn:Hh.
    + destruct (Hsel h eq_refl w1) as [evs2 H2]. exists (evs1 ++ evs2). intros t.
      by rewrite H1, Hh, H2, app_assoc.
    + exists evs1. intros t. by rewrite H1, Hh.
  - exists evs1. intros t. by rewrite H1.
Qed.

Lemma oblivious_with_YoutubeDL {A} (opts : dict) (body : M A) :
  oblivious body -> oblivious (with_YoutubeDL opts body).
Proof.
  intros Hb w. destruct (Hb (log [YdlEnter opts] w)) as [evs H].
  unfold with_YoutubeDL.
  assert (Hrun : forall t,
             body (log [YdlEnter opts] (set_trace t w))
             = (fst (body (log [YdlEnter opts] w)),
                set_trace ((t ++ [YdlEnter opts]) ++ evs)
                  (snd (body (log [YdlEnter opts] w))))).
  { intros t. rewrite <- H. reflexivity. }
  destruct (body (log [YdlEnter opts] w)) as [[a|e|] w1]; simpl in Hrun.
  - exists ([YdlEnter opts] ++ evs ++ [YdlExit]). intros t. rewrite Hrun.
    simpl. unfold log, set_trace. simpl. by rewrite <- !app_assoc.
  - exists ([YdlEnter opts] ++ evs ++ [YdlExit]). intros t. rewrite Hrun.
    simpl. unfold log, set_trace. simpl. by rewrite <- !app_assoc.
  - exists ([YdlEnter opts] ++ evs). intros t. rewrite Hrun.
    simpl. by rewrite <- !app_assoc.
Qed.

Lemma oblivious_mode_loop (fuel : nat) : oblivious (mode_loop fuel).
Proof.
  induction fuel as [|fuel IH]; cbn [mode_loop]; [apply oblivious_out_of_fuel|].
  apply oblivious_bind; [apply oblivious_input|]. intros line.
  case_match; [apply oblivious_ret|].
  apply oblivious_bind; [apply oblivious_print | intros _; exact IH].
Qed.

Lemma oblivious_prompt_mode : oblivious prompt_mode.
Proof.
  unfold prompt_mode. apply oblivious_bind; [apply oblivious_lines_left|].
  intros n. apply oblivious_mode_loop.
Qed.

Lemma oblivious_loop_body (env : Env) (ffmpeg_path : string) :
  oblivious (loop_body env ffmpeg_path).
Proof.
  apply (block_loop_body (@oblivious));
    auto using @oblivious_ret, @oblivious_bind, @oblivious_try_except,
      oblivious_print, oblivious_input, oblivious_get, oblivious_emit,
      oblivious_call, @oblivious_with_YoutubeDL, oblivious_set,
      oblivious_prompt_mode.
Qed.

(** ** The continue prompt *)

Lemma in_list_spec (x : string) (l : list string) : in_list x l = true <-> In x l.
Proof.
  unfold in_list. rewrite existsb_exists. split.
  - intros (y & Hy & Heq). apply String.eqb_eq in Heq. by subst.
  - intros Hx. exists x. split; [done | apply String.eqb_refl].
Qed.

Lemma matches_stop_token_spec (response : string) :
  matches_stop_token response <-> in_list (lower response) stop_tokens = true.
Proof.
  rewrite in_list_spec. unfold matches_stop_token, stop_tokens.
  rewrite !Exists_cons, Exists_nil. simpl.
  change (lower "no") with "no". change (lower "n") with "n".
  change (lower "لا") with "لا". intuition.
Qed.

Lemma ask_continue_eq (w : World) (response : string) (rest : list string) :
  stdin w = response :: rest ->
  ask_continue w
  = if in_list (lower response) stop_tokens
    then (Ret Break, log [Print goodbye_message] (after_input continue_prompt rest w))
    else (Ret Next, log [Print separator] (after_input continue_prompt rest w)).
Proof.
  intros Hin. unfold ask_continue. rewrite (bind_eq _ _ _ _ _ (input_line _ _ _ _ Hin)).
  by destruct (in_list (lower response) stop_tokens).
Qed.

(** C9.  Let a round of the loop have reached the continue prompt, and
    [response] be the line read there.  If [response] matches the whitelist
    the round breaks and the session is over, with the farewell printed.
    Any other response, the empty one included, makes the round fall
    through its end, and the session goes on from the top of the loop. *)
Theorem continue_prompt_stops_on_whitelist_only (env : Env) (ffmpeg_path : string)
    (w0 w : World) (response : string) (rest : list string) :
  loop_body env ffmpeg_path w0 = ask_continue w ->
  stdin w = response :: rest ->
  (matches_stop_token response ->
     let w' := log [Print goodbye_message] (after_input continue_prompt rest w) in
     loop_body env ffmpeg_path w0 = (Ret Break, w')
     /\ session env ffmpeg_path w0 = (Ret tt, w'))
  /\ (~ matches_stop_token response ->
        let w' := log [Print separator] (after_input continue_prompt rest w) in
        loop_body env ffmpeg_path w0 = (Ret Next, w')
        /\ session env ffmpeg_path w0 = session env ffmpeg_path w').
Proof.
  intros Hround Hin. rewrite (ask_continue_eq w response rest Hin) in Hround.
  split; intros Hm; rewrite matches_stop_token_spec in Hm.
  - rewrite Hm in Hround. split; [done | by apply session_break].
  - apply not_true_is_false in Hm. rewrite Hm in Hround.
    split; [done | by eapply session_next_round].
Qed.

Lemma continue_prompt_stops_on_whitelist_only_witness :
  let w0 := initial_world plain_env ["https://example.com/watch?v=abc"; ""; "v"; "NO"] in
  let w1 := snd (get_user_input plain_env w0) in
  let w2 := snd (ensure_folder plain_env w1) in
  let w := snd (start_download plain_env "ffmpeg" "https://example.com/watch?v=abc"
                  false w2) in
  let w' := log [Print goodbye_message] (after_input continue_prompt [] w) in
  loop_body plain_env "ffmpeg" w0 = (Ret Break, w')
  /\ session plain_env "ffmpeg" w0 = (Ret tt, w').
Proof.
  intros w0 w1 w2 w w'.
  assert (Hreach : loop_body plain_env "ffmpeg" w0 = ask_continue w)
    by (vm_compute; reflexivity).
  assert (Hin : stdin w = ["NO"]) by (vm_compute; reflexivity).
  apply (proj1 (continue_prompt_stops_on_whitelist_only plain_env "ffmpeg" w0 w "NO" []
                  Hreach Hin)).
  repeat constructor.
Defined.

(** ** The prompt routine talks to the console only *)

#[local] Instance console_only_preorder : PreOrder console_only.
Proof.
  split.
  - intros w. exists []. split; [by rewrite app_nil_r | constructor].
  - intros w1 w2 w3 (evs1 & H1 & F1) (evs2 & H2 & F2). exists (evs1 ++ evs2).
    split; [by rewrite H2, H1, app_assoc | by apply Forall_app].
Qed.

Lemma console_only_events (evs : list event) (w : World) :
  Forall (fun ev => is_console ev = true) evs -> console_only w (log evs w).
Proof. intros H. by exists evs. Qed.

Lemma console_only_after_input (prompt line : string) (rest : list string) (w : World) :
  stdin w = line :: rest -> console_only w (after_input prompt rest w).
Proof. intros _. exists [Input prompt]. split; [done | by repeat constructor]. Qed.

Lemma console_only_set (p : PyPath) (w : World) :
  console_only w (snd (set_DEFAULT_DOWNLOAD_PATH p w)).
Proof. exists []. split; [simpl; by rewrite app_nil_r | constructor]. Qed.

Lemma get_user_input_console_only (env : Env) (w : World) :
  console_only w (snd (get_user_input env w)).
Proof.
  apply (respects_get_user_input console_only).
  - intros s w'. apply console_only_events. by repeat constructor.
  - intros s w'. apply console_only_events. by repeat constructor.
  - apply console_only_after_input.
  - apply console_only_set.
Qed.

Lemma console_is_no_library_call (evs : list event) :
  Forall (fun ev => is_console ev = true) evs ->
  Forall (fun ev => is_library_call ev = false) evs.
Proof. intros H. eapply Forall_impl; [exact H|]. by intros []. Qed.

(** ** The save folder *)

Lemma ensure_folder_ready (env : Env) (w : World) :
  mkdir env (DEFAULT_DOWNLOAD_PATH w) = None ->
  ensure_folder env w
  = (Ret Next, log (folder_ready_events env (DEFAULT_DOWNLOAD_PATH w)) w).
Proof.
  intros Hmk. unfold ensure_folder, try_except. monad_unfold. rewrite Hmk. simpl.
  by rewrite log_log.
Qed.

Lemma ensure_folder_failed (env : Env) (w : World) (err : exn) :
  mkdir env (DEFAULT_DOWNLOAD_PATH w) = Some err ->
  isinstance_Exception err = true ->
  ensure_folder env w
  = (Ret Continue, log (folder_failed_events (DEFAULT_DOWNLOAD_PATH w) err) w).
Proof.
  intros Hmk Hexc. unfold ensure_folder, try_except. monad_unfold. rewrite Hmk. simpl.
  rewrite Hexc. by rewrite log_log.
Qed.

Lemma loop_body_eq (env : Env) (ffmpeg_path : string) (w w1 : World) (url : string)
    (is_audio_only : bool) :
  get_user_input env w = (Ret (url, is_audio_only), w1) ->
  loop_body env ffmpeg_path w = handle_request env ffmpeg_path url is_audio_only w1.
Proof. intros Hg. unfold loop_body. by rewrite (bind_eq _ _ _ _ _ Hg). Qed.

Lemma handle_request_with_url (env : Env) (ffmpeg_path url : string)
    (is_audio_only : bool) (w : World) :
  url <> "" ->
  handle_request env ffmpeg_path url is_audio_only w
  = then_ (ensure_folder env)
      (start_download env ffmpeg_path url is_audio_only;; ask_continue) w.
Proof.
  intros Hurl. apply truthy_spec in Hurl. unfold handle_request.
  rewrite Hurl. reflexivity.
Qed.

(** C6.  Let a round have read a request with a URL, and the creation of
    the destination directory raise an exception (an [Exception], which is
    what the handler of line 145 catches).  The round reports the
    failure and ends by [continue]: from its start it has added console
    traffic and the one [mkdir] call, no call into the download library, and
    the session goes on from the top of the loop. *)
Theorem folder_creation_failure_aborts_round (env : Env) (ffmpeg_path : string)
    (w w1 : World) (url : string) (is_audio_only : bool) (err : exn) :
  get_user_input env w = (Ret (url, is_audio_only), w1) ->
  url <> "" ->
  mkdir env (DEFAULT_DOWNLOAD_PATH w1) = Some err ->
  isinstance_Exception err = true ->
  let w' := log (folder_failed_events (DEFAULT_DOWNLOAD_PATH w1) err) w1 in
  loop_body env ffmpeg_path w = (Ret Continue, w')
  /\ (exists evs, trace w' = trace w ++ evs
                  /\ Forall (fun ev => is_library_call ev = false) evs)
  /\ session env ffmpeg_path w = session env ffmpeg_path w'.
Proof.
  intros Hg Hurl Hmk Hexc w'.
  assert (Hround : loop_body env ffmpeg_path w = (Ret Continue, w')).
  { rewrite (loop_body_eq _ _ _ _ _ _ Hg), (handle_request_with_url _ _ _ _ _ Hurl).
    unfold then_. by rewrite (bind_eq _ _ _ _ _ (ensure_folder_failed _ _ _ Hmk Hexc)). }
  repeat split; [done | | by eapply session_next_round].
  destruct (get_user_input_console_only env w) as (evs & Htr & Hev).
  rewrite Hg in Htr. simpl in Htr.
  exists (evs ++ folder_failed_events (DEFAULT_DOWNLOAD_PATH w1) err). split.
  - subst w'. simpl. by rewrite Htr, <- app_assoc.
  - apply Forall_app. split; [by apply console_is_no_library_call|].
    by repeat constructor.
Qed.

Lemma folder_creation_failure_aborts_round_witness :
  let w := initial_world plain_env
             ["https://example.com/watch?v=abc"; "/root/locked"; "v"; "later"] in
  let w1 := snd (get_user_input plain_env w) in
  let w' := log (folder_failed_events (Path "/root/locked")
                   (OtherException "[Errno 13] Permission denied")) w1 in
  loop_body plain_env "ffmpeg" w = (Ret Continue, w')
  /\ session plain_env "ffmpeg" w = session plain_env "ffmpeg" w'.
Proof.
  intros w w1 w'.
  destruct (folder_creation_failure_aborts_round plain_env "ffmpeg" w w1
              "https://example.com/watch?v=abc" false
              (OtherException "[Errno 13] Permission denied"))
    as (Hround & _ & Hnext); [reflexivity | discriminate | reflexivity | reflexivity |].
  split; [exact Hround | exact Hnext].
Defined.

(** ** The download attempt *)

Lemma create_download_options_frame (env : Env) (is_audio_only : bool)
    (ffmpeg_path : string) (w w' : World) (opts : dict) :
  create_download_options env is_audio_only ffmpeg_path w = (Ret opts, w) ->
  DEFAULT_DOWNLOAD_PATH w' = DEFAULT_DOWNLOAD_PATH w ->
  create_download_options env is_audio_only ffmpeg_path w' = (Ret opts, w').
Proof.
  unfold create_download_options. monad_unfold. intros [= <-] Hdest.
  by rewrite Hdest.
Qed.

(** The folder opener lets no [Exception] out. *)
Lemma open_download_folder_raises (env : Env) (folder_path : string) (w w' : World)
    (e : exn) :
  open_download_folder env folder_path w = (Raise e, w') ->
  isinstance_Exception e = false.
Proof.
  unfold open_download_folder, try_except, call. monad_unfold.
  intros H. repeat (case_match; simplify_eq/=); done.
Qed.

Lemma isinstance_DownloadError_Exception (e : exn) :
  isinstance_DownloadError e = true -> isinstance_Exception e = true.
Proof. by destruct e. Qed.

Lemma start_download_eq (env : Env) (ffmpeg_path url : string) (is_audio_only : bool)
    (opts : dict) (w : World) :
  create_download_options env is_audio_only ffmpeg_path w = (Ret opts, w) ->
  start_download env ffmpeg_path url is_audio_only w
  = download_and_report env url opts (log (announce_events is_audio_only) w).
Proof.
  intros Hopts. unfold start_download. rewrite (bind_eq _ _ _ _ _ Hopts).
  rewrite !print_bind, !log_log. reflexivity.
Qed.

Lemma download_and_report_success (env : Env) (url : string) (opts : dict) (w : World) :
  ydl_download env opts [url] = None ->
  download_and_report env url opts w
  = let '(r, w') := open_download_folder env
                      (str_path (resolve env (DEFAULT_DOWNLOAD_PATH w)))
                      (log ([YdlEnter opts; YdlDownload opts [url]] ++ completion_banner) w) in
    match r with
    | OutOfFuel => (OutOfFuel, w')
    | _ => (r, log [YdlExit] w')
    end.
Proof.
  intros Hdl. unfold download_and_report, try_except, with_YoutubeDL. monad_unfold.
  rewrite Hdl. simpl. rewrite !log_log. simpl.
  destruct (open_download_folder _ _ _) as [[[]|e|] w'] eqn:Hopen; simpl; try done.
  pose proof (open_download_folder_raises _ _ _ _ _ Hopen) as Hexc.
  destruct (isinstance_DownloadError e) eqn:Hde.
  - apply isinstance_DownloadError_Exception in Hde. congruence.
  - by rewrite Hexc.
Qed.

Lemma download_and_report_download_error (env : Env) (url : string) (opts : dict)
    (w : World) (err : exn) :
  ydl_download env opts [url] = Some err ->
  isinstance_DownloadError err = true ->
  download_and_report env url opts w
  = (Ret tt, log ([YdlEnter opts; YdlDownload opts [url]; YdlExit]
                  ++ download_failed_report err) w).
Proof.
  intros Hdl Hde. unfold download_and_report, try_except, with_YoutubeDL. monad_unfold.
  rewrite Hdl. simpl. rewrite Hde. by rewrite !log_log.
Qed.

Lemma download_and_report_other_exception (env : Env) (url : string) (opts : dict)
    (w : World) (err : exn) :
  ydl_download env opts [url] = Some err ->
  isinstance_DownloadError err = false ->
  isinstance_Exception err = true ->
  download_and_report env url opts w
  = (Ret tt, log ([YdlEnter opts; YdlDownload opts [url]; YdlExit]
                  ++ unexpected_error_report err) w).
Proof.
  intros Hdl Hde Hexc. unfold download_and_report, try_except, with_YoutubeDL.
  monad_unfold. rewrite Hdl. simpl. rewrite Hde, Hexc. by rewrite !log_log.
Qed.

(** C3.  Let a round have read a request with a URL and created the
    destination directory, so that the download is attempted with the record
    [opts]; [w2] is the world at that point.  If the download returns, the
    completion banner is printed and the folder opener is called on the
    resolved destination directory, then the session with the library is
    left and the continue prompt follows (unless the opener lets through an
    exception that is no [Exception]).  If the download raises the library's
    [DownloadError], its own report is printed; if it raises any other
    [Exception], the generic report, which is a different one.  In both
    failure cases nothing is opened and the round goes on to the continue
    prompt. *)
Theorem download_outcome_is_reported (env : Env) (ffmpeg_path : string)
    (w w1 : World) (url : string) (is_audio_only : bool) (opts : dict) :
  get_user_input env w = (Ret (url, is_audio_only), w1) ->
  url <> "" ->
  mkdir env (DEFAULT_DOWNLOAD_PATH w1) = None ->
  create_download_options env is_audio_only ffmpeg_path w1 = (Ret opts, w1) ->
  let dest := DEFAULT_DOWNLOAD_PATH w1 in
  let w2 := log (folder_ready_events env dest ++ announce_events is_audio_only) w1 in
  let called := [YdlEnter opts; YdlDownload opts [url]] in
  (ydl_download env opts [url] = None ->
     loop_body env ffmpeg_path w
     = let '(r, w3) := open_download_folder env (str_path (resolve env dest))
                         (log (called ++ completion_banner) w2) in
       match r with
       | Ret _ => ask_continue (log [YdlExit] w3)
       | Raise e => (Raise e, log [YdlExit] w3)
       | OutOfFuel => (OutOfFuel, w3)
       end)
  /\ (forall err,
        ydl_download env opts [url] = Some err ->
        isinstance_DownloadError err = true ->
        loop_body env ffmpeg_path w
        = ask_continue (log (called ++ YdlExit :: download_failed_report err) w2)
        /\ Forall (fun ev => is_open_call ev = false)
             (called ++ YdlExit :: download_failed_report err))
  /\ (forall err,
        ydl_download env opts [url] = Some err ->
        isinstance_DownloadError err = false ->
        isinstance_Exception err = true ->
        loop_body env ffmpeg_path w
        = ask_continue (log (called ++ YdlExit :: unexpected_error_report err) w2)
        /\ Forall (fun ev => is_open_call ev = false)
             (called ++ YdlExit :: unexpected_error_report err)
        /\ unexpected_error_message err <> download_failed_message).
Proof.
  intros Hg Hurl Hmk Hopts dest w2 called.
  assert (Hround : loop_body env ffmpeg_path w
                   = (download_and_report env url opts;; ask_continue) w2).
  { rewrite (loop_body_eq _ _ _ _ _ _ Hg), (handle_request_with_url _ _ _ _ _ Hurl).
    unfold then_. rewrite (bind_eq _ _ _ _ _ (ensure_folder_ready _ _ Hmk)).
    unfold mbind, M_bind, bind.
    rewrite (start_download_eq env ffmpeg_path url is_audio_only opts).
    - by rewrite log_log.
    - by apply (create_download_options_frame _ _ _ w1). }
  rewrite Hround. clear Hround. split; [|split].
  - intros Hdl. unfold mbind, M_bind, bind.
    rewrite (download_and_report_success _ _ _ _ Hdl).
    change (DEFAULT_DOWNLOAD_PATH w2) with dest.
    by destruct (open_download_folder _ _ _) as [[[]|e|] w3].
  - intros err Hdl Hde. split; [|by repeat constructor].
    by rewrite (bind_eq _ _ _ _ _ (download_and_report_download_error _ _ _ _ _ Hdl Hde)).
  - intros err Hdl Hde Hexc. split; [|split; [by repeat constructor|]].
    + by rewrite (bind_eq _ _ _ _ _
                    (download_and_report_other_exception _ _ _ _ _ Hdl Hde Hexc)).
    + unfold unexpected_error_message, download_failed_message. simpl. discriminate.
Qed.

Lemma download_outcome_is_reported_witness :
  let ok := initial_world plain_env ["https://example.com/watch?v=abc"; ""; "v"; "no"] in
  let gone := initial_world plain_env ["https://example.com/gone"; ""; "a"; ""] in
  let at_try (e : Env) (a : bool) (w : World) :=
    log (folder_ready_events e (DEFAULT_DOWNLOAD_PATH w) ++ announce_events a)
      (snd (get_user_input e w)) in
  let called (e : Env) (a : bool) (w : World) (url : string) :=
    [YdlEnter (sample_options e a w); YdlDownload (sample_options e a w) [url]] in
  loop_body plain_env "ffmpeg" ok
  = ask_continue
      (log [YdlExit]
         (log [ Popen ["xdg-open"; "/home/user/Downloads/YT_Downloads"];
                Print ("📂 Opening download folder now: " +:+
                       "/home/user/Downloads/YT_Downloads") ]
            (log (called plain_env false ok "https://example.com/watch?v=abc"
                  ++ completion_banner)
               (at_try plain_env false ok))))
  /\ loop_body plain_env "ffmpeg" gone
     = ask_continue
         (log (called plain_env true gone "https://example.com/gone"
               ++ YdlExit :: download_failed_report (DownloadError "ERROR: Video unavailable"))
            (at_try plain_env true gone))
  /\ loop_body flaky_env "ffmpeg" gone
     = ask_continue
         (log (called flaky_env true gone "https://example.com/gone"
               ++ YdlExit :: unexpected_error_report (OtherException "timed out"))
            (at_try flaky_env true gone)).
Proof.
  intros ok gone at_try called. split; [|split].
  - apply (proj1 (download_outcome_is_reported plain_env "ffmpeg" ok
                    (snd (get_user_input plain_env ok))
                    "https://example.com/watch?v=abc" false
                    (sample_options plain_env false ok)
                    eq_refl ltac:(discriminate) eq_refl eq_refl) eq_refl).
  - apply (proj1 (proj2 (download_outcome_is_reported plain_env "ffmpeg" gone
                           (snd (get_user_input plain_env gone))
                           "https://example.com/gone" true
                           (sample_options plain_env true gone)
                           eq_refl ltac:(discriminate) eq_refl eq_refl))
             (DownloadError "ERROR: Video unavailable") eq_refl eq_refl).
  - apply (proj2 (proj2 (download_outcome_is_reported flaky_env "ffmpeg" gone
                           (snd (get_user_input flaky_env gone))
                           "https://example.com/gone" true
                           (sample_options flaky_env true gone)
                           eq_refl ltac:(discriminate) eq_refl eq_refl))
             (OtherException "timed out") eq_refl eq_refl eq_refl).
Defined.

(** ** The destination directory across rounds *)

Lemma same_dest_print (s : string) (w : World) : same_dest w (log [Print s] w).
Proof. reflexivity. Qed.

Lemma same_dest_input_eof (prompt : string) (w : World) :
  same_dest w (log [Input prompt] w).
Proof. reflexivity. Qed.

Lemma handle_request_same_dest (env : Env) (ffmpeg_path url : string)
    (is_audio_only : bool) (w : World) :
  DEFAULT_DOWNLOAD_PATH (snd (handle_request env ffmpeg_path url is_audio_only w))
  = DEFAULT_DOWNLOAD_PATH w.
Proof.
  apply (respects_handle_request same_dest same_dest_print same_dest_input_eof
           same_dest_after_input same_dest_log).
Qed.

(** The destination after a round is the one before it, unless the second
    line of the round, the answer to the destination prompt, is not empty:
    then it is that answer. *)
Lemma loop_body_dest (env : Env) (ffmpeg_path : string) (w : World) :
  DEFAULT_DOWNLOAD_PATH (snd (loop_body env ffmpeg_path w))
  = match stdin w with
    | _ :: new_path_input :: _ =>
        if truthy new_path_input then Path new_path_input
        else DEFAULT_DOWNLOAD_PATH w
    | _ => DEFAULT_DOWNLOAD_PATH w
    end.
Proof.
  destruct (decide (length (stdin w) < 2)) as [Hs|Hs].
  - destruct (get_user_input_eof env w Hs) as (msg & w' & Heq & Hdest).
    unfold loop_body. rewrite (bind_raise _ _ _ _ _ Heq). simpl.
    by destruct (stdin w) as [|url [|]]; simpl in Hs; try lia.
  - destruct (stdin w) as [|url [|new_path_input rest]] eqn:Hin; simpl in Hs; try lia.
    unfold loop_body, mbind, M_bind, bind.
    rewrite (get_user_input_eq env w url new_path_input rest Hin).
    unfold mbind, M_bind, bind.
    destruct (prompt_mode_spec (at_mode_prompt env w new_path_input rest))
      as (_ & Hdest & _).
    destruct (prompt_mode _) as [[a|e|] w2]; simpl in *; try done.
    by rewrite handle_request_same_dest.
Qed.

Lemma no_override_one (env : Env) (ffmpeg_path : string) (w : World) :
  stdin w !! 1 = Some "" -> no_override env ffmpeg_path 1 w.
Proof.
  intros Hin k wk Hk Hrk. destruct k as [|k]; [|lia].
  simpl in Hrk. by injection Hrk as <-.
Qed.

Lemma rounds_keep_dest (env : Env) (ffmpeg_path : string) (n : nat) (w wn : World) :
  rounds env ffmpeg_path n w = Some wn ->
  no_override env ffmpeg_path n w ->
  DEFAULT_DOWNLOAD_PATH wn = DEFAULT_DOWNLOAD_PATH w.
Proof.
  revert w. induction n as [|n IH]; intros w Hr Hno; simpl in Hr.
  - by injection Hr as <-.
  - pose proof (loop_body_dest env ffmpeg_path w) as Hdest.
    pose proof (Hno 0 w ltac:(lia) eq_refl) as H0.
    destruct (stdin w) as [|url [|new_path_input rest]]; try done.
    injection H0 as ->. simpl in Hdest.
    assert (Hnext : forall w', loop_body env ffmpeg_path w = (Ret Next, w')
                               \/ loop_body env ffmpeg_path w = (Ret Continue, w') ->
                               rounds env ffmpeg_path n w' = Some wn ->
                               DEFAULT_DOWNLOAD_PATH wn = DEFAULT_DOWNLOAD_PATH w).
    { intros w' Hb Hr'. rewrite <- Hdest.
      assert (Heq : snd (loop_body env ffmpeg_path w) = w') by (by destruct Hb as [-> | ->]).
      rewrite Heq. apply IH; [done|].
      intros k wk Hk Hrk. apply (Hno (S k) wk); [lia|]. simpl.
      by destruct Hb as [-> | ->]. }
    destruct (loop_body env ffmpeg_path w) as [[[]|e|] w'] eqn:Hb; try done.
    + apply (Hnext w'); auto.
    + apply (Hnext w'); auto.
Qed.

Lemma handle_request_no_url (env : Env) (ffmpeg_path : string) (is_audio_only : bool)
    (w : World) :
  handle_request env ffmpeg_path "" is_audio_only w
  = (Ret Continue, log [Print no_url_message] w).
Proof. reflexivity. Qed.

(** C10.  Let a round read the empty line as its URL, [new_path_input] at
    the destination prompt, and leave [get_user_input] with a mode.  Before
    the empty URL is noticed the destination prompt and the mode prompt have
    both been shown and answered; the round then prints its complaint and
    ends by [continue], with console traffic only (no call into the download
    library), and the session goes on from the top of the loop.  If
    [new_path_input] is not empty it is the destination from then on: after
    this round, and after any number of further rounds in which the
    destination prompt is answered by the empty line. *)
Theorem empty_url_round_still_sets_destination (env : Env) (ffmpeg_path : string)
    (w w1 : World) (new_path_input : string) (rest : list string)
    (is_audio_only : bool) :
  stdin w = "" :: new_path_input :: rest ->
  get_user_input env w = (Ret ("", is_audio_only), w1) ->
  let w' := log [Print no_url_message] w1 in
  (exists evs,
     trace w1 = trace (at_mode_prompt env w new_path_input rest)
                ++ Input mode_prompt :: evs
     /\ Forall (fun ev => is_console ev = true) evs)
  /\ loop_body env ffmpeg_path w = (Ret Continue, w')
  /\ (exists evs, trace w' = trace w ++ evs
                  /\ Forall (fun ev => is_library_call ev = false) evs)
  /\ session env ffmpeg_path w = session env ffmpeg_path w'
  /\ (new_path_input <> "" ->
      DEFAULT_DOWNLOAD_PATH w' = Path new_path_input
      /\ forall n wn,
           rounds env ffmpeg_path n w' = Some wn ->
           no_override env ffmpeg_path n w' ->
           DEFAULT_DOWNLOAD_PATH wn = Path new_path_input).
Proof.
  intros Hin Hg w'.
  assert (Hround : loop_body env ffmpeg_path w = (Ret Continue, w')).
  { by rewrite (loop_body_eq _ _ _ _ _ _ Hg), handle_request_no_url. }
  assert (Hmode : get_user_input env w
                  = (a ← prompt_mode; mret ("", a))
                      (at_mode_prompt env w new_path_input rest))
    by (by apply get_user_input_eq).
  destruct (prompt_mode_spec (at_mode_prompt env w new_path_input rest))
    as (_ & Hdest & evs & Htr & Hev).
  rewrite Hg in Hmode. unfold mbind, M_bind, bind in Hmode.
  destruct (prompt_mode (at_mode_prompt env w new_path_input rest))
    as [[a|e|] w2] eqn:Hpm; try done.
  unfold mret, M_ret, ret in Hmode. injection Hmode as _ ->. simpl in Htr, Hdest.
  split; [|split; [|split; [|split]]].
  - by exists evs.
  - done.
  - destruct (get_user_input_console_only env w) as (evs' & Htr' & Hev').
    rewrite Hg in Htr'. simpl in Htr'.
    exists (evs' ++ [Print no_url_message]). split.
    + subst w'. simpl. by rewrite Htr', <- app_assoc.
    + apply Forall_app. split; [by apply console_is_no_library_call|].
      by repeat constructor.
  - by eapply session_next_round.
  - intros Hne. apply truthy_spec in Hne.
    assert (Hw' : DEFAULT_DOWNLOAD_PATH w' = Path new_path_input).
    { subst w'. simpl. rewrite Hdest. by rewrite Hne. }
    split; [done|]. intros n wn Hr Hno.
    rewrite <- Hw'. by eapply rounds_keep_dest.
Qed.

Lemma empty_url_round_still_sets_destination_witness :
  let w := initial_world plain_env
             [""; "/srv/media"; "x"; "a"; "https://example.com/watch?v=abc"; ""; "v"; ""] in
  let w' := log [Print no_url_message] (snd (get_user_input plain_env w)) in
  loop_body plain_env "ffmpeg" w = (Ret Continue, w')
  /\ DEFAULT_DOWNLOAD_PATH w' = Path "/srv/media"
  /\ exists wn, rounds plain_env "ffmpeg" 1 w' = Some wn
                /\ DEFAULT_DOWNLOAD_PATH wn = Path "/srv/media".
Proof.
  intros w w'.
  assert (Hg : get_user_input plain_env w
               = (Ret ("", true), snd (get_user_input plain_env w)))
    by (vm_compute; reflexivity).
  destruct (empty_url_round_still_sets_destination plain_env "ffmpeg" w
              (snd (get_user_input plain_env w)) "/srv/media"
              ["x"; "a"; "https://example.com/watch?v=abc"; ""; "v"; ""] true
              eq_refl Hg)
    as (_ & Hround & _ & _ & Hdest).
  destruct (Hdest ltac:(discriminate)) as [Hnow Hlater].
  split; [exact Hround | split; [exact Hnow|]].
  exists (snd (loop_body plain_env "ffmpeg" w')).
  assert (Hr : rounds plain_env "ffmpeg" 1 w'
               = Some (snd (loop_body plain_env "ffmpeg" w')))
    by (vm_compute; reflexivity).
  split; [exact Hr|].
  apply (Hlater 1 _ Hr).
  apply no_override_one. vm_compute. reflexivity.
Defined.

Lemma same_dest_stdin_set_trace (w1 w2 : World) :
  DEFAULT_DOWNLOAD_PATH w1 = DEFAULT_DOWNLOAD_PATH w2 ->
  stdin w1 = stdin w2 ->
  w2 = set_trace (trace w2) w1.
Proof. destruct w1, w2. simpl. by intros -> ->. Qed.

(** A round is a function of the destination, the binary path and the lines
    still to come: two rounds that agree on these end alike and add the same
    events, whatever happened before either. *)
Lemma loop_body_sees_dest_and_input_only (env : Env) (ffmpeg_path : string)
    (w1 w2 : World) :
  DEFAULT_DOWNLOAD_PATH w1 = DEFAULT_DOWNLOAD_PATH w2 ->
  stdin w1 = stdin w2 ->
  fst (loop_body env ffmpeg_path w1) = fst (loop_body env ffmpeg_path w2)
  /\ DEFAULT_DOWNLOAD_PATH (snd (loop_body env ffmpeg_path w1))
     = DEFAULT_DOWNLOAD_PATH (snd (loop_body env ffmpeg_path w2))
  /\ stdin (snd (loop_body env ffmpeg_path w1))
     = stdin (snd (loop_body env ffmpeg_path w2))
  /\ exists evs,
       trace (snd (loop_body env ffmpeg_path w1)) = trace w1 ++ evs
       /\ trace (snd (loop_body env ffmpeg_path w2)) = trace w2 ++ evs.
Proof.
  intros Hdest Hin.
  destruct (oblivious_loop_body env ffmpeg_path w1) as [evs Hobl].
  pose proof (Hobl (trace w1)) as H1. rewrite set_trace_id in H1.
  pose proof (Hobl (trace w2)) as H2.
  rewrite <- (same_dest_stdin_set_trace w1 w2 Hdest Hin) in H2.
  rewrite H2. simpl. repeat split.
  exists evs. split; [|done]. by rewrite H1 at 1.
Qed.

(** C5.  A round in which the destination prompt is answered by a
    non-empty line ends with that line as the destination, and so does every
    later round as long as the prompt is answered by the empty line; a round
    in which it is answered by the empty line ends with the destination it
    began with.  Besides the destination and the binary path, which is the
    loop's parameter, a round depends on nothing that went before: two
    rounds that start with the same destination and the same lines to come
    end alike and add the same events, whatever their pasts. *)
Theorem destination_override_persists (env : Env) (ffmpeg_path : string) :
  (forall w url new_path_input rest,
     stdin w = url :: new_path_input :: rest ->
     new_path_input <> "" ->
     let w' := snd (loop_body env ffmpeg_path w) in
     DEFAULT_DOWNLOAD_PATH w' = Path new_path_input
     /\ forall n wn,
          rounds env ffmpeg_path n w' = Some wn ->
          no_override env ffmpeg_path n w' ->
          DEFAULT_DOWNLOAD_PATH wn = Path new_path_input)
  /\ (forall w url rest,
        stdin w = url :: "" :: rest ->
        DEFAULT_DOWNLOAD_PATH (snd (loop_body env ffmpeg_path w))
        = DEFAULT_DOWNLOAD_PATH w)
  /\ (forall w1 w2,
        DEFAULT_DOWNLOAD_PATH w1 = DEFAULT_DOWNLOAD_PATH w2 ->
        stdin w1 = stdin w2 ->
        fst (loop_body env ffmpeg_path w1) = fst (loop_body env ffmpeg_path w2)
        /\ DEFAULT_DOWNLOAD_PATH (snd (loop_body env ffmpeg_path w1))
           = DEFAULT_DOWNLOAD_PATH (snd (loop_body env ffmpeg_path w2))
        /\ stdin (snd (loop_body env ffmpeg_path w1))
           = stdin (snd (loop_body env ffmpeg_path w2))
        /\ exists evs,
             trace (snd (loop_body env ffmpeg_path w1)) = trace w1 ++ evs
             /\ trace (snd (loop_body env ffmpeg_path w2)) = trace w2 ++ evs).
Proof.
  split; [|split].
  - intros w url new_path_input rest Hin Hne w'.
    assert (Hw' : DEFAULT_DOWNLOAD_PATH w' = Path new_path_input).
    { subst w'. rewrite loop_body_dest, Hin. apply truthy_spec in Hne.
      by rewrite Hne. }
    split; [done|]. intros n wn Hr Hno. rewrite <- Hw'. by eapply rounds_keep_dest.
  - intros w url rest Hin. by rewrite loop_body_dest, Hin.
  - apply loop_body_sees_dest_and_input_only.
Qed.

Lemma destination_override_persists_witness :
  let w := initial_world plain_env
             [ "https://example.com/watch?v=abc"; "/srv/media"; "v"; "yes";
               "https://example.com/watch?v=def"; ""; "a"; "" ] in
  let w1 := snd (loop_body plain_env "ffmpeg" w) in
  let w2 := snd (loop_body plain_env "ffmpeg" w1) in
  DEFAULT_DOWNLOAD_PATH w1 = Path "/srv/media"
  /\ rounds plain_env "ffmpeg" 1 w1 = Some w2
  /\ DEFAULT_DOWNLOAD_PATH w2 = Path "/srv/media".
Proof.
  intros w w1 w2.
  destruct (proj1 (destination_override_persists plain_env "ffmpeg") w
              "https://example.com/watch?v=abc" "/srv/media"
              ["v"; "yes"; "https://example.com/watch?v=def"; ""; "a"; ""]
              eq_refl ltac:(discriminate))
    as [Hnow Hlater].
  assert (Hr : rounds plain_env "ffmpeg" 1 w1 = Some w2) by (vm_compute; reflexivity).
  split; [exact Hnow | split; [exact Hr|]].
  apply (Hlater 1 w2 Hr).
  apply no_override_one. vm_compute. reflexivity.
Defined.

(** * Further properties of the program *)

(** ** The Library Updater *)

(** X1.  The update is best effort.  Whatever pip answers, the updater has
    announced itself and called [sys.executable -m pip install --upgrade
    yt-dlp] once.  If the call returns, or raises any [Exception], the
    updater returns normally after the matching status line and the closing
    rule (the error's text is not shown), and [main] goes on to the FFmpeg
    check.  Only an exception that is no [Exception] gets out, and then
    neither status line nor rule is printed. *)
Theorem update_ytdlp_library_is_best_effort (env : Env) (w : World) :
  (check_call env (pip_upgrade_argv env) = None ->
     let w' := log (update_started_events env ++
                    [ Print "✅ Library updated successfully (or is already the latest version).";
                      Print (str_mul "-" 40) ]) w in
     update_ytdlp_library env w = (Ret tt, w')
     /\ main env w = (check_ffmpeg env ≫= session env) w')
  /\ (forall err,
        check_call env (pip_upgrade_argv env) = Some err ->
        isinstance_Exception err = true ->
        let w' := log (update_started_events env ++
                       [ Print "❌ Failed to update library. Please update manually.";
                         Print (str_mul "-" 40) ]) w in
        update_ytdlp_library env w = (Ret tt, w')
        /\ main env w = (check_ffmpeg env ≫= session env) w')
  /\ (forall err,
        check_call env (pip_upgrade_argv env) = Some err ->
        isinstance_Exception err = false ->
        update_ytdlp_library env w = (Raise err, log (update_started_events env) w)
        /\ main env w = (Raise err, log (update_started_events env) w)).
Proof.
  split; [|split].
  - intros Hpip w'.
    assert (Hup : update_ytdlp_library env w = (Ret tt, w')).
    { unfold update_ytdlp_library, try_except. monad_unfold. rewrite Hpip. simpl.
      by rewrite !log_log. }
    split; [done|]. unfold main. by rewrite (bind_eq _ _ _ _ _ Hup).
  - intros err Hpip Hexc w'.
    assert (Hup : update_ytdlp_library env w = (Ret tt, w')).
    { unfold update_ytdlp_library, try_except. monad_unfold. rewrite Hpip. simpl.
      rewrite Hexc. by rewrite !log_log. }
    split; [done|]. unfold main. by rewrite (bind_eq _ _ _ _ _ Hup).
  - intros err Hpip Hexc.
    assert (Hup : update_ytdlp_library env w
                  = (Raise err, log (update_started_events env) w)).
    { unfold update_ytdlp_library, try_except. monad_unfold. rewrite Hpip. simpl.
      rewrite Hexc. by rewrite !log_log. }
    split; [done|]. unfold main. by rewrite (bind_raise _ _ _ _ _ Hup).
Qed.

Lemma update_ytdlp_library_is_best_effort_witness :
  let w := initial_world plain_env [] in
  fst (update_ytdlp_library plain_env w) = Ret tt
  /\ fst (update_ytdlp_library offline_env w) = Ret tt
  /\ main interrupted_env w
     = (Raise KeyboardInterrupt, log (update_started_events interrupted_env) w).
Proof.
  intros w.
  destruct (update_ytdlp_library_is_best_effort plain_env w) as (Hok & _ & _).
  destruct (update_ytdlp_library_is_best_effort offline_env w) as (_ & Hfail & _).
  destruct (update_ytdlp_library_is_best_effort interrupted_env w) as (_ & _ & Hint).
  split; [|split].
  - by rewrite (proj1 (Hok eq_refl)).
  - by rewrite (proj1 (Hfail _ eq_refl eq_refl)).
  - exact (proj2 (Hint _ eq_refl eq_refl)).
Defined.

(** ** The Folder Opener *)

(** X2.  The folder opener makes exactly one call, chosen by the platform:
    [os.startfile] on Windows, [open] on Darwin, [xdg-open] on anything
    else, each on the path given.  If the call returns, the opener says so;
    if it raises an [Exception], the opener prints the failure with the
    error's text instead, and returns normally all the same.  Only an
    exception that is no [Exception] gets out, with nothing printed.  The
    destination and the pending input are left alone. *)
Theorem open_download_folder_opens_once (env : Env) (folder_path : string) (w : World) :
  let '(opening, verdict) := open_call env folder_path in
  open_download_folder env folder_path w
  = match verdict with
    | None =>
        (Ret tt, log [opening; Print ("📂 Opening download folder now: " +:+ folder_path)] w)
    | Some err =>
        if isinstance_Exception err then
          (Ret tt,
           log [opening;
                Print ("❌ Failed to open download folder automatically: " +:+ str_exn err)] w)
        else (Raise err, log [opening] w)
    end.
Proof.
  unfold open_call, open_download_folder, try_except. monad_unfold.
  repeat case_match; simplify_eq/=; rewrite ?log_log; try done;
    repeat case_match; simplify_eq/=; by rewrite ?log_log.
Qed.

(** ** The Binary Locator, read backwards *)

Lemma probe_paths_sound (env : Env) (ps : list PyPath) (w : World) :
  exists found evs,
    probe_paths env ps w = (Ret found, log evs w)
    /\ length evs <= length ps
    /\ Forall (fun ev => exists p, ev = PathExists p /\ In p ps) evs
    /\ match found with
       | Some s => exists p, In p ps /\ path_exists env p = true
                             /\ s = str_path (resolve env p)
       | None => Forall (fun p => path_exists env p = false) ps
       end.
Proof.
  revert w. induction ps as [|q ps IH]; intros w; simpl.
  - exists None, []. rewrite log_nil. repeat split; by try constructor.
  - rewrite emit_bind. destruct (path_exists env q) eqn:Hq.
    + exists (Some (str_path (resolve env q))), [PathExists q].
      repeat split; [simpl; lia | |].
      * constructor; [|constructor]. exists q. split; [done | by left].
      * exists q. split; [by left | done].
    + destruct (IH (log [PathExists q] w)) as (found & evs & Heq & Hlen & Hev & Hfound).
      exists found, (PathExists q :: evs). rewrite Heq, log_log.
      repeat split; [simpl; lia | |].
      * constructor; [exists q; split; [done | by left]|].
        eapply Forall_impl; [exact Hev|]. intros ev (p & -> & Hp).
        exists p. split; [done | by right].
      * destruct found as [s|].
        -- destruct Hfound as (p & Hp & Hex & ->). exists p. split; [by right | done].
        -- by constructor.
Qed.


(** ** The startup check, when FFmpeg is there *)

(** X4.  The startup check hands the session a binary path that is never
    empty.  A located path other than the bare name [ffmpeg] is announced as
    found and passed on as it is: to the session and from there into the
    [ffmpeg_location] of every options record.  A locator answer that is
    [None], empty or literally [ffmpeg] is treated as not found: the notice is
    printed and the bare name is used. *)
Theorem check_ffmpeg_passes_located_path (env : Env) (w wf : World)
    (found : option string) :
  find_ffmpeg_path env w = (Ret found, wf) ->
  (forall s, found = Some s -> s <> "" -> s <> "ffmpeg" ->
     check_ffmpeg env w = (Ret s, log [Print ffmpeg_found_message] wf)
     /\ (forall w0, update_ytdlp_library env w0 = (Ret tt, w) ->
           main env w0 = session env s (log [Print ffmpeg_found_message] wf))
     /\ (forall (is_audio_only : bool) (w' : World) (opts : dict),
           create_download_options env is_audio_only s w' = (Ret opts, w') ->
           opts !! "ffmpeg_location" = Some (VStr s)))
  /\ (found = None \/ found = Some "" \/ found = Some "ffmpeg" ->
      check_ffmpeg env w = (Ret "ffmpeg", log ffmpeg_missing_notice_events wf))
  /\ (exists p wc, check_ffmpeg env w = (Ret p, wc) /\ p <> "").
Proof.
  intros Hfind.
  assert (Hfound : forall s, found = Some s -> s <> "" -> s <> "ffmpeg" ->
             check_ffmpeg env w = (Ret s, log [Print ffmpeg_found_message] wf)).
  { intros s -> Hne Hbare. unfold check_ffmpeg. rewrite (bind_eq _ _ _ _ _ Hfind).
    apply truthy_spec in Hne. rewrite Hne. simpl.
    by destruct (String.eqb_spec s "ffmpeg"). }
  assert (Hmissing : found = None \/ found = Some "" \/ found = Some "ffmpeg" ->
             check_ffmpeg env w = (Ret "ffmpeg", log ffmpeg_missing_notice_events wf)).
  { intros Hcase. unfold check_ffmpeg. rewrite (bind_eq _ _ _ _ _ Hfind).
    destruct Hcase as [-> | [-> | ->]]; simpl;
      unfold mbind, M_bind, bind; by rewrite (ffmpeg_missing_notice_eq env). }
  split; [|split; [done|]].
  - intros s Hs Hne Hbare. split; [by apply Hfound|]. split.
    + intros w0 Hup. unfold main. rewrite (bind_eq _ _ _ _ _ Hup).
      by rewrite (bind_eq _ _ _ _ _ (Hfound s Hs Hne Hbare)).
    + intros a w' opts Hopts. unfold create_download_options in Hopts.
      monad_unfold. injection Hopts as <-. by destruct a.
  - destruct found as [s|]; [|eexists _, _; split; [apply Hmissing; by left | done]].
    destruct (String.eqb_spec s ""); [subst|].
    { eexists _, _. split; [apply Hmissing; right; by left | done]. }
    destruct (String.eqb_spec s "ffmpeg"); [subst|].
    { eexists _, _. split; [apply Hmissing; right; by right | done]. }
    eexists _, _. split; [by apply Hfound | done].
Qed.

Lemma check_ffmpeg_passes_located_path_witness :
  let w := initial_world env_on_path ["https://example.com/watch?v=abc"; ""; "v"; "no"] in
  let wf := log [Which "ffmpeg"] w in
  check_ffmpeg env_on_path w
  = (Ret "/usr/bin/ffmpeg", log [Print ffmpeg_found_message] wf).
Proof.
  intros w wf.
  apply (proj1 (check_ffmpeg_passes_located_path env_on_path w wf
                  (Some "/usr/bin/ffmpeg") eq_refl)
           "/usr/bin/ffmpeg" eq_refl); discriminate.
Defined.

(** ** The Options Builder: the whole record *)



(** ** The prompt routine as a whole *)





(** ** The traffic with the download library *)

Lemma open_download_folder_within_bound (env : Env) (folder_path : string)
    (w w' : World) :
  open_download_folder env folder_path w = (OutOfFuel, w') -> False.
Proof.
  unfold open_download_folder, try_except, call. monad_unfold.
  intros H. repeat (case_match; simplify_eq/=).
Qed.

Lemma ensure_folder_uncaught (env : Env) (w : World) (err : exn) :
  mkdir env (DEFAULT_DOWNLOAD_PATH w) = Some err ->
  isinstance_Exception err = false ->
  ensure_folder env w = (Raise err, log [Mkdir (DEFAULT_DOWNLOAD_PATH w)] w).
Proof.
  intros Hmk Hexc. unfold ensure_folder, try_except. monad_unfold. rewrite Hmk. simpl.
  by rewrite Hexc.
Qed.

Lemma download_and_report_uncaught (env : Env) (url : string) (opts : dict)
    (w : World) (err : exn) :
  ydl_download env opts [url] = Some err ->
  isinstance_Exception err = false ->
  download_and_report env url opts w = (Raise err, log (library_session opts url) w).
Proof.
  intros Hdl Hexc. unfold download_and_report, try_except, with_YoutubeDL.
  monad_unfold. rewrite Hdl. simpl.
  destruct (isinstance_DownloadError err) eqn:Hde.
  - apply isinstance_DownloadError_Exception in Hde. congruence.
  - rewrite Hexc. by rewrite !log_log.
Qed.

Lemma create_download_options_at (env : Env) (is_audio_only : bool)
    (ffmpeg_path : string) (w : World) :
  create_download_options env is_audio_only ffmpeg_path w
  = (Ret (options_at env is_audio_only ffmpeg_path w), w).
Proof. reflexivity. Qed.

(** The events of a round, seen through a filter [f] that lets through
    neither console traffic nor the creation of the folder nor the opening
    of the folder: what is left is what is left of the library traffic due
    in the round. *)
Section Filtered.
Variable f : event -> bool.
Hypothesis f_console : forall ev, is_console ev = true -> f ev = false.
Hypothesis f_mkdir : forall p, f (Mkdir p) = false.
Hypothesis f_open : forall ev, is_open_call ev = true -> f ev = false.

Lemma filtered_console (evs : list event) :
  Forall (fun ev => is_console ev = true) evs -> List.filter f evs = [].
Proof.
  induction 1 as [|ev evs Hev _ IH]; [done|]. simpl. by rewrite (f_console ev Hev).
Qed.

Lemma open_download_folder_filtered (env : Env) (folder_path : string) (w : World) :
  exists evs,
    trace (snd (open_download_folder env folder_path w)) = trace w ++ evs
    /\ List.filter f evs = [].
Proof.
  unfold open_download_folder, try_except, call. monad_unfold.
  repeat (case_match; simplify_eq/=);
    rewrite <- ?app_assoc; eexists;
    (split; [reflexivity | simpl; by rewrite ?f_open, ?f_console by done]).
Qed.

Lemma ask_continue_filtered (w : World) :
  exists evs,
    trace (snd (ask_continue w)) = trace w ++ evs /\ List.filter f evs = [].
Proof.
  destruct (proj2 (respects_ask_continue console_only
                     ltac:(intros s w'; apply console_only_events; by repeat constructor)
                     ltac:(intros s w'; apply console_only_events; by repeat constructor)
                     console_only_after_input w)) as (evs & Htr & Hev).
  exists evs. split; [done | by apply filtered_console].
Qed.

(** Whatever the download and the folder opener do, the attempt enters the
    library's session, downloads and leaves the session: once each, in that
    order. *)
Lemma download_and_report_filtered (env : Env) (url : string) (opts : dict)
    (w : World) :
  exists evs,
    trace (snd (download_and_report env url opts w)) = trace w ++ evs
    /\ List.filter f evs = List.filter f (library_session opts url).
Proof.
  destruct (ydl_download env opts [url]) as [err|] eqn:Hdl.
  - destruct (isinstance_Exception err) eqn:Hexc;
      [destruct (isinstance_DownloadError err) eqn:Hde|].
    + rewrite (download_and_report_download_error _ _ _ _ _ Hdl Hde).
      eexists. split; [reflexivity|].
      rewrite List.filter_app, (filtered_console (download_failed_report err)), app_nil_r;
        [done | by repeat constructor].
    + rewrite (download_and_report_other_exception _ _ _ _ _ Hdl Hde Hexc).
      eexists. split; [reflexivity|].
      rewrite List.filter_app, (filtered_console (unexpected_error_report err)), app_nil_r;
        [done | by repeat constructor].
    + rewrite (download_and_report_uncaught _ _ _ _ _ Hdl Hexc).
      eexists. split; reflexivity.
  - rewrite (download_and_report_success _ _ _ _ Hdl).
    destruct (open_download_folder_filtered env
                (str_path (resolve env (DEFAULT_DOWNLOAD_PATH w)))
                (log ([YdlEnter opts; YdlDownload opts [url]] ++ completion_banner) w))
      as (evs & Htr & Hlib).
    assert (Hfilter : List.filter f
                        (([YdlEnter opts; YdlDownload opts [url]] ++ completion_banner)
                         ++ evs ++ [YdlExit])
                      = List.filter f (library_session opts url)).
    { change (library_session opts url)
        with ([YdlEnter opts; YdlDownload opts [url]] ++ [YdlExit]).
      rewrite !List.filter_app, Hlib, (filtered_console completion_banner)
        by (by repeat constructor).
      by rewrite app_nil_r. }
    destruct (open_download_folder _ _ _) as [[[]|e|] w'] eqn:Hopen; simpl in Htr.
    + eexists. split; [|exact Hfilter].
      simpl. rewrite Htr. simpl. by rewrite <- !app_assoc.
    + eexists. split; [|exact Hfilter].
      simpl. rewrite Htr. simpl. by rewrite <- !app_assoc.
    + by pose proof (open_download_folder_within_bound env _ _ _ Hopen).
Qed.

Lemma handle_request_filtered (env : Env) (ffmpeg_path url : string)
    (is_audio_only : bool) (w : World) :
  exists evs,
    trace (snd (handle_request env ffmpeg_path url is_audio_only w)) = trace w ++ evs
    /\ List.filter f evs
       = List.filter f (library_calls_due env ffmpeg_path url is_audio_only w).
Proof.
  unfold library_calls_due. destruct (truthy url) eqn:Hurl.
  2:{ unfold handle_request. rewrite Hurl. simpl. eexists. split; [reflexivity|].
      simpl. by rewrite f_console. }
  apply truthy_spec in Hurl. rewrite (handle_request_with_url _ _ _ _ _ Hurl).
  unfold then_. destruct (mkdir env (DEFAULT_DOWNLOAD_PATH w)) as [err|] eqn:Hmk.
  { destruct (isinstance_Exception err) eqn:Hexc.
    - rewrite (bind_eq _ _ _ _ _ (ensure_folder_failed _ _ _ Hmk Hexc)).
      eexists. split; [reflexivity|]. simpl. by rewrite f_mkdir, f_console.
    - rewrite (bind_raise _ _ _ _ _ (ensure_folder_uncaught _ _ _ Hmk Hexc)).
      eexists. split; [reflexivity|]. simpl. by rewrite f_mkdir. }
  rewrite (bind_eq _ _ _ _ _ (ensure_folder_ready _ _ Hmk)).
  set (w1 := log (folder_ready_events env (DEFAULT_DOWNLOAD_PATH w)) w).
  set (opts := options_at env is_audio_only ffmpeg_path w).
  unfold mbind, M_bind, bind.
  rewrite (start_download_eq env ffmpeg_path url is_audio_only opts w1)
    by apply create_download_options_at.
  destruct (download_and_report_filtered env url opts
              (log (announce_events is_audio_only) w1)) as (evs & Htr & Hlib).
  assert (Hready : List.filter f (folder_ready_events env (DEFAULT_DOWNLOAD_PATH w)) = []).
  { simpl. by rewrite f_mkdir, f_console. }
  assert (Hannounce : List.filter f (announce_events is_audio_only) = []).
  { apply filtered_console. by repeat constructor. }
  destruct (download_and_report env url opts _) as [[[]|e|] w2]; simpl in Htr.
  - destruct (ask_continue_filtered w2) as (evs' & Htr' & Hlib').
    exists (folder_ready_events env (DEFAULT_DOWNLOAD_PATH w)
            ++ announce_events is_audio_only ++ evs ++ evs').
    split; [rewrite Htr', Htr; simpl; by rewrite <- !app_assoc|].
    by rewrite !List.filter_app, Hready, Hannounce, Hlib, Hlib', app_nil_r.
  - exists (folder_ready_events env (DEFAULT_DOWNLOAD_PATH w)
            ++ announce_events is_audio_only ++ evs).
    split; [simpl; rewrite Htr; simpl; by rewrite <- !app_assoc|].
    by rewrite !List.filter_app, Hready, Hannounce, Hlib.
  - exists (folder_ready_events env (DEFAULT_DOWNLOAD_PATH w)
            ++ announce_events is_audio_only ++ evs).
    split; [simpl; rewrite Htr; simpl; by rewrite <- !app_assoc|].
    by rewrite !List.filter_app, Hready, Hannounce, Hlib.
Qed.

Lemma loop_body_filtered (env : Env) (ffmpeg_path : string) (w : World) :
  exists evs,
    trace (snd (loop_body env ffmpeg_path w)) = trace w ++ evs
    /\ List.filter f evs
       = match get_user_input env w with
         | (Ret (url, is_audio_only), w1) =>
             List.filter f (library_calls_due env ffmpeg_path url is_audio_only w1)
         | _ => []
         end.
Proof.
  destruct (get_user_input_console_only env w) as (evs & Htr & Hev).
  unfold loop_body, mbind, M_bind, bind.
  destruct (get_user_input env w) as [[[url is_audio_only]|e|] w1]; simpl in Htr.
  - destruct (handle_request_filtered env ffmpeg_path url is_audio_only w1)
      as (evs' & Htr' & Hlib').
    exists (evs ++ evs'). split; [by rewrite Htr', Htr, <- app_assoc|].
    by rewrite List.filter_app, (filtered_console _ Hev), Hlib'.
  - exists evs. split; [done | by apply filtered_console].
  - exists evs. split; [done | by apply filtered_console].
Qed.
End Filtered.

Lemma library_calls_app (a b : list event) :
  library_calls (a ++ b) = library_calls a ++ library_calls b.
Proof. apply List.filter_app. Qed.

Lemma library_calls_due_all (env : Env) (ffmpeg_path url : string)
    (is_audio_only : bool) (w : World) :
  library_calls (library_calls_due env ffmpeg_path url is_audio_only w)
  = library_calls_due env ffmpeg_path url is_audio_only w.
Proof. unfold library_calls_due. by repeat case_match. Qed.

Lemma loop_body_events (env : Env) (ffmpeg_path : string) (w : World) :
  exists evs,
    trace (snd (loop_body env ffmpeg_path w)) = trace w ++ evs
    /\ library_calls evs
       = match get_user_input env w with
         | (Ret (url, is_audio_only), w1) =>
             library_calls_due env ffmpeg_path url is_audio_only w1
         | _ => []
         end.
Proof.
  destruct (loop_body_filtered is_library_call ltac:(by intros [])
              ltac:(done) ltac:(by intros []) env ffmpeg_path w) as (evs & Htr & Hlib).
  exists evs. split; [done|]. unfold library_calls. rewrite Hlib.
  destruct (get_user_input env w) as [[[url a]|e|] w1]; try done.
  apply library_calls_due_all.
Qed.

(** X7.  A round talks to the download library at most once, and then in
    full: the session is entered, the one URL of the request is downloaded
    with the record built for the request, and the session is left, whatever
    the download and the folder opener do, exceptions that nothing catches
    included.  This happens exactly when the prompt routine returned a
    non-empty URL and the destination directory could be created; a round
    that ends earlier makes no call into the library. *)
Theorem round_library_traffic (env : Env) (ffmpeg_path : string) (w : World) :
  exists evs,
    trace (snd (loop_body env ffmpeg_path w)) = trace w ++ evs
    /\ match get_user_input env w with
       | (Ret (url, is_audio_only), w1) =>
           library_calls evs
           = if truthy url then
               match mkdir env (DEFAULT_DOWNLOAD_PATH w1) with
               | None =>
                   [ YdlEnter (options_at env is_audio_only ffmpeg_path w1);
                     YdlDownload (options_at env is_audio_only ffmpeg_path w1) [url];
                     YdlExit ]
               | Some _ => []
               end
             else []
       | _ => library_calls evs = []
       end.
Proof.
  destruct (loop_body_events env ffmpeg_path w) as (evs & Htr & Hlib).
  exists evs. split; [done|].
  by destruct (get_user_input env w) as [[[url is_audio_only]|e|] w1].
Qed.

Lemma options_at_fixed_entries (env : Env) (is_audio_only : bool) (ffmpeg_path : string)
    (w : World) :
  options_at env is_audio_only ffmpeg_path w !! "ffmpeg_location" = Some (VStr ffmpeg_path)
  /\ options_at env is_audio_only ffmpeg_path w !! "ignoreerrors" = Some (VBool true).
Proof. by destruct is_audio_only. Qed.

Lemma main_loop_library_traffic (env : Env) (ffmpeg_path : string) (fuel : nat)
    (w : World) :
  exists (evs : list event) (attempts : list (dict * string)),
    trace (snd (main_loop env fuel ffmpeg_path w)) = trace w ++ evs
    /\ library_calls evs
       = flat_map (fun attempt => library_session attempt.1 attempt.2) attempts
    /\ Forall (fun attempt =>
                 attempt.2 <> ""
                 /\ attempt.1 !! "ffmpeg_location" = Some (VStr ffmpeg_path)
                 /\ attempt.1 !! "ignoreerrors" = Some (VBool true)) attempts.
Proof.
  revert w. induction fuel as [|fuel IH]; intros w.
  { exists [], []. simpl. by rewrite app_nil_r. }
  cbn [main_loop]. unfold mbind, M_bind, bind.
  destruct (loop_body_events env ffmpeg_path w) as (evs1 & Htr1 & Hlib1).
  assert (Hround : exists attempts1,
             library_calls evs1
             = flat_map (fun attempt => library_session attempt.1 attempt.2) attempts1
             /\ Forall (fun attempt =>
                          attempt.2 <> ""
                          /\ attempt.1 !! "ffmpeg_location" = Some (VStr ffmpeg_path)
                          /\ attempt.1 !! "ignoreerrors" = Some (VBool true)) attempts1).
  { rewrite Hlib1.
    destruct (get_user_input env w) as [[[url a]|e|] w1]; try (by exists []).
    unfold library_calls_due. destruct (truthy url) eqn:Hurl; [|by exists []].
    destruct (mkdir env (DEFAULT_DOWNLOAD_PATH w1)); [by exists []|].
    exists [(options_at env a ffmpeg_path w1, url)]. split; [done|].
    constructor; [|constructor]. split; [by apply truthy_spec|].
    apply options_at_fixed_entries. }
  destruct Hround as (attempts1 & Hcalls1 & Hok1).
  destruct (loop_body env ffmpeg_path w) as [[c|e|] w1]; simpl in Htr1.
  - assert (Hnext : exists evs attempts,
               trace (snd (main_loop env fuel ffmpeg_path w1)) = trace w ++ evs
               /\ library_calls evs
                  = flat_map (fun attempt => library_session attempt.1 attempt.2) attempts
               /\ Forall (fun attempt =>
                            attempt.2 <> ""
                            /\ attempt.1 !! "ffmpeg_location" = Some (VStr ffmpeg_path)
                            /\ attempt.1 !! "ignoreerrors" = Some (VBool true)) attempts).
    { destruct (IH w1) as (evs2 & attempts2 & Htr2 & Hcalls2 & Hok2).
      exists (evs1 ++ evs2), (attempts1 ++ attempts2). split; [|split].
      - by rewrite Htr2, Htr1, <- app_assoc.
      - by rewrite library_calls_app, flat_map_app, Hcalls1, Hcalls2.
      - by apply Forall_app. }
    destruct c; [exact Hnext | exact Hnext |].
    by exists evs1, attempts1.
  - by exists evs1, attempts1.
  - by exists evs1, attempts1.
Qed.

(** X8.  The binary path found at startup is the one every download of the
    session uses.  All the traffic of a session with the download library
    is a sequence of complete attempts (enter, download, leave), each for
    one non-empty URL, each with a record whose [ffmpeg_location] is the
    session's binary path and whose errors are to be ignored. *)
Theorem session_library_traffic (env : Env) (ffmpeg_path : string) (w : World) :
  exists (evs : list event) (attempts : list (dict * string)),
    trace (snd (session env ffmpeg_path w)) = trace w ++ evs
    /\ library_calls evs
       = flat_map (fun attempt =>
                     [ YdlEnter attempt.1; YdlDownload attempt.1 [attempt.2]; YdlExit ])
           attempts
    /\ Forall (fun attempt =>
                 attempt.2 <> ""
                 /\ attempt.1 !! "ffmpeg_location" = Some (VStr ffmpeg_path)
                 /\ attempt.1 !! "ignoreerrors" = Some (VBool true)) attempts.
Proof.
  rewrite session_eq. apply main_loop_library_traffic.
Qed.

(** ** How the program ends *)















Lemma find_ffmpeg_path_never_raises (env : Env) (w : World) :
  exists found wf, find_ffmpeg_path env w = (Ret found, wf).
Proof.
  unfold find_ffmpeg_path. rewrite emit_bind.
  destruct (truthy_opt (which env "ffmpeg")); [by eexists _, _|].
  destruct (probe_paths_sound env common_paths (log [Which "ffmpeg"] w))
    as (found & evs & Heq & _).
  by eexists _, _.
Qed.

Lemma raises_only_find_ffmpeg_path (env : Env) :
  raises_only (fun _ => False) (find_ffmpeg_path env).
Proof.
  intros w e w' Hr.
  destruct (find_ffmpeg_path_never_raises env w) as (found & wf & Heq).
  by rewrite Heq in Hr.
Qed.











(** ** The responses that stop the loop *)

Lemma lower_ascii_n (c : ascii) :
  lower_ascii c = "n"%char -> c = "n"%char \/ c = "N"%char.
Proof.
  destruct c as [[] [] [] [] [] [] [] []]; vm_compute; intros H;
    solve [discriminate H | by left | by right].
Qed.

Lemma lower_ascii_o (c : ascii) :
  lower_ascii c = "o"%char -> c = "o"%char \/ c = "O"%char.
Proof.
  destruct c as [[] [] [] [] [] [] [] []]; vm_compute; intros H;
    solve [discriminate H | by left | by right].
Qed.

(** A byte above the ASCII range is lowered to itself, and from itself
    only. *)
Lemma lower_ascii_high (c : ascii) (b7 b6 b5 b4 b3 b2 b1 : bool) :
  lower_ascii c = Ascii b1 b2 b3 b4 b5 b6 b7 true ->
  c = Ascii b1 b2 b3 b4 b5 b6 b7 true.
Proof.
  destruct c as [[] [] [] [] [] [] [] []]; vm_compute; intros H;
    solve [exact H | discriminate H].
Qed.

Lemma lower_is_n (s : string) : lower s = "n" <-> s = "n" \/ s = "N".
Proof.
  split; [|by intros [-> | ->]].
  destruct s as [|c [|c' s']]; simpl; try discriminate.
  intros [= H]. destruct (lower_ascii_n c H) as [-> | ->]; auto.
Qed.

Lemma lower_is_no (s : string) :
  lower s = "no" <-> s = "no" \/ s = "No" \/ s = "nO" \/ s = "NO".
Proof.
  split; [|by intros [-> | [-> | [-> | ->]]]].
  destruct s as [|c1 [|c2 [|c3 s']]]; simpl; try discriminate.
  intros [= H1 H2].
  destruct (lower_ascii_n c1 H1) as [-> | ->], (lower_ascii_o c2 H2) as [-> | ->]; auto.
Qed.

Lemma lower_is_la (s : string) : lower s = "لا" <-> s = "لا".
Proof.
  split; [|by intros ->].
  destruct s as [|c1 [|c2 [|c3 [|c4 [|c5 s']]]]]; simpl; try discriminate.
  intros [= H1 H2 H3 H4].
  apply lower_ascii_high in H1, H2, H3, H4. by subst.
Qed.

(** X10.  At the continue prompt exactly seven responses stop the loop: no
    in any casing, n in either, and the Arabic word.  Nothing is trimmed and
    nothing else counts: any other response, be it empty, [yes], [quit] or a
    stop word with a blank around it, lets the round end without a break. *)
Theorem continue_prompt_stop_responses (w : World) (response : string)
    (rest : list string) :
  stdin w = response :: rest ->
  (In response stop_responses <-> fst (ask_continue w) = Ret Break)
  /\ (~ In response stop_responses <-> fst (ask_continue w) = Ret Next).
Proof.
  intros Hin. rewrite (ask_continue_eq w response rest Hin).
  assert (Hstop : in_list (lower response) stop_tokens = true
                  <-> In response stop_responses).
  { rewrite in_list_spec. unfold stop_tokens, stop_responses. simpl. split.
    - intros [H | [H | [H | []]]]; symmetry in H.
      + apply (proj1 (lower_is_no _)) in H.
        destruct H as [-> | [-> | [-> | ->]]]; auto 10.
      + apply (proj1 (lower_is_n _)) in H. destruct H as [-> | ->]; auto 10.
      + apply (proj1 (lower_is_la _)) in H. subst. auto 10.
    - intros [<- | [<- | [<- | [<- | [<- | [<- | [<- | []]]]]]]];
        solve [by left | right; by left | right; right; by left]. }
  destruct (in_list (lower response) stop_tokens); simpl.
  - split; split; try done.
    + intros _. by apply Hstop.
    + intros Hno. destruct Hno. by apply Hstop.
  - split; split; try done.
    + intros Hyes. by apply Hstop in Hyes.
    + intros _ Hyes. by apply Hstop in Hyes.
Qed.

Lemma continue_prompt_stop_responses_witness :
  fst (ask_continue (initial_world plain_env ["nO"; "next"])) = Ret Break
  /\ fst (ask_continue (initial_world plain_env [" no"])) = Ret Next
  /\ fst (ask_continue (initial_world plain_env [""])) = Ret Next.
Proof.
  split; [|split].
  - apply (proj1 (continue_prompt_stop_responses
                    (initial_world plain_env ["nO"; "next"]) "nO" ["next"] eq_refl)).
    simpl. tauto.
  - apply (proj2 (continue_prompt_stop_responses
                    (initial_world plain_env [" no"]) " no" [] eq_refl)).
    simpl. intuition discriminate.
  - apply (proj2 (continue_prompt_stop_responses
                    (initial_world plain_env [""]) "" [] eq_refl)).
    simpl. intuition discriminate.
Defined.

(** ** What is done once, at startup *)

Lemma startup_calls_app (a b : list event) :
  startup_calls (a ++ b) = startup_calls a ++ startup_calls b.
Proof. apply List.filter_app. Qed.

Lemma main_loop_startup_calls (env : Env) (ffmpeg_path : string) (fuel : nat)
    (w : World) :
  exists evs,
    trace (snd (main_loop env fuel ffmpeg_path w)) = trace w ++ evs
    /\ startup_calls evs = [].
Proof.
  revert w. induction fuel as [|fuel IH]; intros w.
  { exists []. simpl. by rewrite app_nil_r. }
  cbn [main_loop]. unfold mbind, M_bind, bind.
  destruct (loop_body_filtered is_startup_call ltac:(by intros [])
              ltac:(done) ltac:(by intros []) env ffmpeg_path w) as (evs1 & Htr1 & Hf1).
  assert (Hnone : startup_calls evs1 = []).
  { unfold startup_calls. rewrite Hf1.
    destruct (get_user_input env w) as [[[url a]|e|] w1]; try done.
    unfold library_calls_due. by repeat case_match. }
  destruct (loop_body env ffmpeg_path w) as [[c|e|] w1]; simpl in Htr1;
    [|by exists evs1 ..].
  assert (Hnext : exists evs,
             trace (snd (main_loop env fuel ffmpeg_path w1)) = trace w ++ evs
             /\ startup_calls evs = []).
  { destruct (IH w1) as (evs2 & Htr2 & Hf2). exists (evs1 ++ evs2).
    split; [by rewrite Htr2, Htr1, <- app_assoc|].
    by rewrite startup_calls_app, Hnone, Hf2. }
  destruct c; [exact Hnext | exact Hnext | by exists evs1].
Qed.

Lemma update_ytdlp_library_startup_calls (env : Env) (w : World) :
  exists evs,
    trace (snd (update_ytdlp_library env w)) = trace w ++ evs
    /\ startup_calls evs = [CheckCall (pip_upgrade_argv env)].
Proof.
  unfold update_ytdlp_library, try_except, call. monad_unfold.
  repeat (case_match; simplify_eq/=);
    rewrite <- ?app_assoc; eexists; (split; reflexivity).
Qed.

Lemma check_ffmpeg_startup_calls (env : Env) (w : World) :
  exists evs probes,
    trace (snd (check_ffmpeg env w)) = trace w ++ evs
    /\ startup_calls evs = Which "ffmpeg" :: probes
    /\ length probes <= 4
    /\ Forall is_candidate_probe probes.
Proof.
  assert (Hfind : exists found probes,
             find_ffmpeg_path env w = (Ret found, log (Which "ffmpeg" :: probes) w)
             /\ length probes <= 4 /\ Forall is_candidate_probe probes).
  { unfold find_ffmpeg_path. rewrite emit_bind.
    destruct (truthy_opt (which env "ffmpeg")).
    - exists (which env "ffmpeg"), []. repeat split; [simpl; lia | constructor].
    - destruct (probe_paths_sound env common_paths (log [Which "ffmpeg"] w))
        as (found & evs & Heq & Hlen & Hev & _).
      exists found, evs. by rewrite Heq, log_log. }
  destruct Hfind as (found & probes & Hfind & Hlen & Hprobes).
  assert (Hkeep : startup_calls probes = probes).
  { clear -Hprobes. induction Hprobes as [|ev evs (p & -> & _) _ IH]; [done|].
    unfold startup_calls in *. simpl. by rewrite IH. }
  unfold check_ffmpeg. rewrite (bind_eq _ _ _ _ _ Hfind).
  assert (Hnotice : forall p : string,
             exists evs,
               trace (snd ((ffmpeg_missing_notice;; mret p)
                             (log (Which "ffmpeg" :: probes) w))) = trace w ++ evs
               /\ startup_calls evs = Which "ffmpeg" :: probes).
  { intros p. unfold mbind, M_bind, bind. rewrite (ffmpeg_missing_notice_eq env).
    exists ((Which "ffmpeg" :: probes) ++ ffmpeg_missing_notice_events).
    split; [simpl; by rewrite <- app_assoc|].
    rewrite startup_calls_app. change (startup_calls ffmpeg_missing_notice_events) with
      (@nil event). rewrite app_nil_r. unfold startup_calls in *. simpl. by rewrite Hkeep. }
  destruct found as [s|]; [destruct (negb (truthy s) || String.eqb s "ffmpeg")|].
  - destruct (Hnotice "ffmpeg") as (evs & Htr & Hs). by exists evs, probes.
  - exists ((Which "ffmpeg" :: probes) ++ [Print ffmpeg_found_message]), probes.
    split; [simpl; by rewrite <- app_assoc|]. split; [|done].
    rewrite startup_calls_app. simpl. rewrite app_nil_r.
    unfold startup_calls in *. simpl. by rewrite Hkeep.
  - destruct (Hnotice "ffmpeg") as (evs & Htr & Hs). by exists evs, probes.
Qed.

(** X11.  The startup work is done once in a run of [main], however many
    rounds follow.  Among all the events of the run, pip is called exactly
    once, first; if the updater returns, the search path is asked exactly
    once after that and at most the four candidates are probed; and that is
    all: no round updates the library or looks for FFmpeg again. *)
Theorem main_startup_work_is_done_once (env : Env) (w : World) :
  exists evs probes,
    trace (snd (main env w)) = trace w ++ evs
    /\ length probes <= 4
    /\ Forall is_candidate_probe probes
    /\ startup_calls evs
       = match fst (update_ytdlp_library env w) with
         | Ret _ => CheckCall (pip_upgrade_argv env) :: Which "ffmpeg" :: probes
         | _ => [CheckCall (pip_upgrade_argv env)]
         end.
Proof.
  destruct (update_ytdlp_library_startup_calls env w) as (evs1 & Htr1 & Hs1).
  unfold main, mbind, M_bind, bind.
  destruct (update_ytdlp_library env w) as [[[]|e|] w1]; simpl in Htr1;
    [|exists evs1, []; repeat split; [done | simpl; lia | constructor | done] ..].
  destruct (check_ffmpeg_startup_calls env w1) as (evs2 & probes & Htr2 & Hs2 & Hlen & Hp).
  destruct (check_ffmpeg env w1) as [[p|e|] w2]; simpl in Htr2.
  - rewrite session_eq.
    destruct (main_loop_startup_calls env p (S (length (stdin w2))) w2)
      as (evs3 & Htr3 & Hs3).
    exists (evs1 ++ evs2 ++ evs3), probes. repeat split; [|done|done|].
    + by rewrite Htr3, Htr2, Htr1, <- !app_assoc.
    + by rewrite !startup_calls_app, Hs1, Hs2, Hs3, app_nil_r.
  - exists (evs1 ++ evs2), probes. repeat split; [|done|done|].
    + simpl. by rewrite Htr2, Htr1, <- !app_assoc.
    + by rewrite !startup_calls_app, Hs1, Hs2.
  - exists (evs1 ++ evs2), probes. repeat split; [|done|done|].
    + simpl. by rewrite Htr2, Htr1, <- !app_assoc.
    + by rewrite !startup_calls_app, Hs1, Hs2.
Qed.
